(** * CDP wallet subscription demo: request handlers and UI controller

    A shallow embedding of
    - [src/app/API/charge-subscription/route.ts]  (module [ChargeRoute]),
    - [src/app/API/revoke-subscription/route.ts]  (module [RevokeRoute]),
    - [components/SubscriptionManager.tsx]        (module [SubscriptionManager]),
    over a small model of the JavaScript values these files handle
    (module [JS]).  The external platform SDK ([base.subscription.*]) is
    never modelled: every handler is parameterised by an arbitrary function
    standing for the SDK call, and records the calls it makes. *)

From Stdlib Require Import ZArith String List Bool.
From Stdlib Require Import SpecFloat.
From stdpp Require Import base gmap strings list.

Open Scope string_scope.
Open Scope list_scope.

(** ** JavaScript values *)

Module JS.

(** The values that travel through the program: what [JSON.parse] can
    produce, plus [undefined].  Numbers are IEEE-754 doubles, kept as data
    ([spec_float]); no arithmetic is ever performed on them by the program.
    An object is the list of its own properties in insertion order; a
    property is read by its first occurrence. *)
#[warnings="-register-all"]
Inductive jsval : Type :=
| JUndefined
| JNull
| JBool (b : bool)
| JNum (n : spec_float)
| JStr (s : string)
| JArr (items : list jsval)
| JObj (props : list (string * jsval)).

(** The result of evaluating something that may throw. *)
Inductive completion (A : Type) : Type :=
| Normal (a : A)
| Throw (e : jsval).
Arguments Normal {A} a.
Arguments Throw {A} e.

(** ToBoolean: [undefined], [null], [false], [+0], [-0], [NaN] and the
    empty string are falsy, everything else is truthy. *)
Definition truthy (v : jsval) : bool :=
  match v with
  | JUndefined | JNull => false
  | JBool b => b
  | JNum (S754_zero _) | JNum S754_nan => false
  | JNum _ => true
  | JStr s => negb (s =? "")
  | JArr _ | JObj _ => true
  end.

(** [a || b] and [a && b] return one of their operands. *)
Definition js_or (a b : jsval) : jsval := if truthy a then a else b.
Definition js_and (a b : jsval) : jsval := if truthy a then b else a.

Definition nullish (v : jsval) : bool :=
  match v with JUndefined | JNull => true | _ => false end.

Fixpoint alist_get (k : string) (ps : list (string * jsval)) : option jsval :=
  match ps with
  | [] => None
  | (k', v) :: rest => if k' =? k then Some v else alist_get k rest
  end.

Definition keys (ps : list (string * jsval)) : list string := map fst ps.

(** Reading the property [k] of a value that is not [null]/[undefined].
    The source only reads names that no primitive or array has
    (subscriptionId, amount, recipient, message, error, ...), so such a
    read on a non-object gives [undefined]. *)
Definition get_prop (v : jsval) (k : string) : jsval :=
  match v with
  | JObj ps => default JUndefined (alist_get k ps)
  | _ => JUndefined
  end.

(** An [Error] instance, reduced to the one property the program reads
    (the program never serialises one). *)
Definition js_Error (message : string) : jsval :=
  JObj [("message", JStr message)].

(** Messages of the engine's own errors (V8's wording; no property below
    depends on the text). *)
Definition TypeError_read (k : string) (v : jsval) : jsval :=
  js_Error ("Cannot read properties of "
            ++ (if v is JNull then "null" else "undefined")
            ++ " (reading '" ++ k ++ "')")%string.
Definition TypeError_destructure (k : string) (v : jsval) : jsval :=
  js_Error ("Cannot destructure property '" ++ k ++ "' of 'object' as it is "
            ++ (if v is JNull then "null" else "undefined") ++ ".")%string.
Definition SyntaxError_json : jsval :=
  js_Error "Unexpected token in JSON".

(** [v.k]: throws a TypeError on [null] and [undefined]. *)
Definition member (v : jsval) (k : string) : completion jsval :=
  if nullish v then Throw (TypeError_read k v) else Normal (get_prop v k).

(** [v?.k] *)
Definition opt_member (v : jsval) (k : string) : jsval :=
  if nullish v then JUndefined else get_prop v k.

(** [const { k, ... } = v]: throws a TypeError on [null] and [undefined]. *)
Definition destructure (v : jsval) (k : string) : completion jsval :=
  if nullish v then Throw (TypeError_destructure k v) else Normal (get_prop v k).

(** [v === "s"] for a string literal. *)
Definition strict_eq_str (v : jsval) (s : string) : bool :=
  match v with JStr s' => s' =? s | _ => false end.

(** [typeof v === 'object'] (true of [null] as well). *)
Definition typeof_object (v : jsval) : bool :=
  match v with JNull | JArr _ | JObj _ => true | _ => false end.

(** [{ ...o, k: v }] and [o.k = v]: overwrite in place or append. *)
Fixpoint obj_set (k : string) (v : jsval) (ps : list (string * jsval))
  : list (string * jsval) :=
  match ps with
  | [] => [(k, v)]
  | (k', v') :: rest =>
      if k' =? k then (k, v) :: rest else (k', v') :: obj_set k v rest
  end.

(** [{ a, ...(c && { k: v }) }]: spreading a falsy value adds nothing. *)
Definition spread_if (c : jsval) (extra : list (string * jsval))
  : list (string * jsval) :=
  if truthy c then extra else [].

Definition float_same (a b : spec_float) : bool :=
  match a, b with
  | S754_zero s, S754_zero t => Bool.eqb s t
  | S754_infinity s, S754_infinity t => Bool.eqb s t
  | S754_nan, S754_nan => true
  | S754_finite s m e, S754_finite t n f =>
      Bool.eqb s t && Pos.eqb m n && Z.eqb e f
  | _, _ => false
  end.

(** [Object.is a b], the comparison React applies to effect dependencies.
    On primitives it is exact.  Objects and arrays are compared by
    reference in JavaScript; values here carry no identity, so they are
    compared by structure: exact for one state value seen by two renders,
    an over-approximation for a structurally equal value set afresh. *)
Fixpoint Object_is (a b : jsval) : bool :=
  match a, b with
  | JUndefined, JUndefined => true
  | JNull, JNull => true
  | JBool x, JBool y => Bool.eqb x y
  | JNum x, JNum y => float_same x y
  | JStr x, JStr y => x =? y
  | JArr xs, JArr ys =>
      (fix go (xs ys : list jsval) : bool :=
         match xs, ys with
         | [], [] => true
         | x :: xs', y :: ys' => Object_is x y && go xs' ys'
         | _, _ => false
         end) xs ys
  | JObj ps, JObj qs =>
      (fix go (ps qs : list (string * jsval)) : bool :=
         match ps, qs with
         | [], [] => true
         | (k, x) :: ps', (l, y) :: qs' => (k =? l) && Object_is x y && go ps' qs'
         | _, _ => false
         end) ps qs
  | _, _ => false
  end.

(** What a value becomes after [JSON.stringify] and [JSON.parse]:
    properties holding [undefined] are dropped, [undefined] in an array and
    the non-finite numbers become [null], [-0] becomes [0]. *)
Fixpoint json_wire (v : jsval) : jsval :=
  match v with
  | JUndefined => JNull
  | JNull => JNull
  | JBool b => JBool b
  | JNum (S754_zero _) => JNum (S754_zero false)
  | JNum (S754_finite s m e) => JNum (S754_finite s m e)
  | JNum _ => JNull
  | JStr s => JStr s
  | JArr xs => JArr (map json_wire xs)
  | JObj ps =>
      JObj ((fix props (ps : list (string * jsval)) : list (string * jsval) :=
               match ps with
               | [] => []
               | (k, JUndefined) :: rest => props rest
               | (k, x) :: rest => (k, json_wire x) :: props rest
               end) ps)
  end.

(** A string, abstracted by what [JSON.parse] makes of it: the text of a
    JSON value, or anything else (on which [JSON.parse] throws). *)
Inductive json_text : Type :=
| Wellformed (v : jsval)
| Malformed (raw : string).

Definition JSON_parse (t : json_text) : completion jsval :=
  match t with
  | Wellformed v => Normal v
  | Malformed _ => Throw SyntaxError_json
  end.

(** [JSON.stringify v]; of [undefined] it is [undefined], which a string
    sink ([localStorage.setItem], a request body) turns into the text
    "undefined". *)
Definition JSON_stringify (v : jsval) : json_text :=
  match v with
  | JUndefined => Malformed "undefined"
  | _ => Wellformed (json_wire v)
  end.

(** Truthiness of a string held as [json_text]: only the empty string,
    which is not JSON, is falsy. *)
Definition text_truthy (t : json_text) : bool :=
  match t with
  | Malformed raw => negb (raw =? "")
  | Wellformed _ => true
  end.

(** *** Computations with effects

    [M S A] threads a state [S] (a call log for the request handlers, the
    browser-side world for the UI controller) and may throw. *)
Definition M (S A : Type) : Type := S -> S * completion A.

Definition ret {S A} (a : A) : M S A := fun s => (s, Normal a).
Definition throw {S A} (e : jsval) : M S A := fun s => (s, Throw e).
Definition bind {S A B} (m : M S A) (f : A -> M S B) : M S B :=
  fun s => match m s with
           | (s', Normal a) => f a s'
           | (s', Throw e) => (s', Throw e)
           end.
Definition lift {S A} (c : completion A) : M S A := fun s => (s, c).
Definition modify {S} (f : S -> S) : M S unit := fun s => (f s, Normal tt).

(** [try { body } catch (e) { handler e }] *)
Definition try_catch {S A} (body : M S A) (handler : jsval -> M S A) : M S A :=
  fun s => match body s with
           | (s', Normal a) => (s', Normal a)
           | (s', Throw e) => handler e s'
           end.

(** [try { body } finally { fin }]: [fin] always runs; the completion of
    [body] is kept unless [fin] itself throws. *)
Definition try_finally {S A} (body : M S A) (fin : M S unit) : M S A :=
  fun s => match body s with
           | (s', r) => match fin s' with
                        | (s'', Normal _) => (s'', r)
                        | (s'', Throw e) => (s'', Throw e)
                        end
           end.

End JS.

Declare Scope js_scope.
Delimit Scope js_scope with js.
Notation "x <- m ;; k" := (JS.bind m (fun x => k))
  (at level 100, m at next level, right associativity) : js_scope.
Notation "m ;;; k" := (JS.bind m (fun _ => k))
  (at level 100, right associativity) : js_scope.

(** ** The server side: what the route handlers share *)

Module Server.
Import JS.

(** The calls a handler makes into the platform SDK, with the options
    object it passes. *)
Inductive call : Type :=
| Charge (options : jsval)    (* base.subscription.charge(options) *)
| Revoke (options : jsval).   (* base.subscription.revoke(options) *)

Record Response : Type := { status : Z; body : jsval }.

(** [NextResponse.json(body, { status })] *)
Definition NextResponse_json (body : jsval) (status : Z) : Response :=
  {| status := status; body := body |}.

(** [process.env.NAME]: a string, or [undefined] when the variable is unset. *)
Definition process_env (env : gmap string string) (name : string) : jsval :=
  match env !! name with
  | Some s => JStr s
  | None => JUndefined
  end.

(** A handler run: the calls made, then the response returned, or the
    value thrown out of the handler. *)
Definition Handler : Type := M (list call) Response.

Definition calls_of (h : Handler) : list call := fst (h []).
Definition outcome_of (h : Handler) : completion Response := snd (h []).

End Server.

(** ** [app/API/charge-subscription/route.ts] *)

Module ChargeRoute.
Import JS Server.
Local Open Scope js_scope.

Definition WALLET_NAME : string := "bbq-sub-v1".

Section WithPlatform.

(** ToString of a value inside a template literal. *)
Variable ToString : jsval -> string.
Variable env : gmap string string.
(** The SDK's charge operation: any function of the options object, which
    returns a result or throws. *)
Variable charge : jsval -> completion jsval.

Definition base_subscription_charge (options : jsval) : M (list call) jsval :=
  fun log => (log ++ [Charge options], charge options).

Definition POST (request : json_text) : Handler :=
  try_catch
    (json <- lift (JSON_parse request) ;;
     subscriptionId <- lift (destructure json "subscriptionId") ;;
     amount <- lift (destructure json "amount") ;;
     recipient <- lift (destructure json "recipient") ;;
     if negb (truthy subscriptionId) then
       ret (NextResponse_json
              (JObj [("error", JStr "Missing subscriptionId")]) 400)
     else
       (* Use the amount from request, default to $1.00 if not provided *)
       let chargeAmount := js_or amount (JStr "1.00") in
       let chargeOptions :=
         [("id", subscriptionId);
          ("amount", chargeAmount);
          ("testnet", JBool true);
          ("walletName", JStr WALLET_NAME);
          ("cdpApiKeyId", process_env env "CDP_API_KEY_ID");
          ("cdpApiKeySecret", process_env env "CDP_API_KEY_SECRET");
          ("cdpWalletSecret", process_env env "CDP_WALLET_SECRET")] in
       (* Add recipient if provided *)
       let chargeOptions :=
         if truthy recipient
         then obj_set "recipient" recipient chargeOptions
         else chargeOptions in
       chargeResult <- base_subscription_charge (JObj chargeOptions) ;;
       (* the console.log lines read chargeResult.id and .amount *)
       _ <- lift (member chargeResult "id") ;;
       _ <- lift (member chargeResult "amount") ;;
       _ <- lift (member chargeResult "id") ;;
       transactionHash <- lift (member chargeResult "id") ;;
       amount' <- lift (member chargeResult "amount") ;;
       subscriptionOwner <- lift (member chargeResult "subscriptionOwner") ;;
       amount'' <- lift (member chargeResult "amount") ;;
       subscriptionId' <- lift (member chargeResult "subscriptionId") ;;
       recipient' <- lift (member chargeResult "recipient") ;;
       ret (NextResponse_json
              (JObj ([("success", JBool true);
                      ("transactionHash", transactionHash);
                      ("amount", amount');
                      ("subscriptionOwner", subscriptionOwner);
                      ("message",
                        JStr ("Successfully charged $"
                              ++ ToString amount'' ++ " USDC")%string);
                      ("subscriptionId", subscriptionId')]
                     ++ spread_if recipient' [("recipient", recipient')]))
              200))
    (fun error =>
       message <- lift (member error "message") ;;
       ret (NextResponse_json
              (JObj [("success", JBool false);
                     ("error",
                       js_or message (JStr "Failed to charge subscription"))])
              500)).

End WithPlatform.
End ChargeRoute.

(** ** [app/API/revoke-subscription/route.ts] *)

Module RevokeRoute.
Import JS Server.
Local Open Scope js_scope.

Definition WALLET_NAME : string := "bbq-sub-v1".

Section WithPlatform.

Variable env : gmap string string.
(** The SDK's revoke operation. *)
Variable revoke : jsval -> completion jsval.

Definition base_subscription_revoke (options : jsval) : M (list call) jsval :=
  fun log => (log ++ [Revoke options], revoke options).

Definition POST (request : json_text) : Handler :=
  try_catch
    (json <- lift (JSON_parse request) ;;
     subscriptionId <- lift (destructure json "subscriptionId") ;;
     if negb (truthy subscriptionId) then
       ret (NextResponse_json
              (JObj [("error", JStr "Missing subscriptionId")]) 400)
     else
       revokeResult <-
         base_subscription_revoke
           (JObj [("id", subscriptionId);
                  ("testnet", JBool true);
                  ("walletName", JStr WALLET_NAME);
                  ("cdpApiKeyId", process_env env "CDP_API_KEY_ID");
                  ("cdpApiKeySecret", process_env env "CDP_API_KEY_SECRET");
                  ("cdpWalletSecret", process_env env "CDP_WALLET_SECRET")]) ;;
       ret (NextResponse_json
              (JObj [("success", JBool true);
                     ("subscriptionId", subscriptionId);
                     ("message", JStr "Subscription revoked successfully");
                     ("revokeResult", revokeResult)])
              200))
    (fun error =>
       message <- lift (member error "message") ;;
       ret (NextResponse_json
              (JObj [("success", JBool false);
                     ("error",
                       js_or message (JStr "Failed to revoke subscription"))])
              500)).

End WithPlatform.
End RevokeRoute.

(** ** [components/SubscriptionManager.tsx]: the UI controller *)

Module SubscriptionManager.
Import JS.
Local Open Scope js_scope.

(** The component's [useState] cells.  [wallet], [subscription] and
    [subscriptionStatus] hold whatever was parsed or fetched ([null] when
    absent); [error] is [null], a string, or an [ErrorInfo] object. *)
Record State : Type := {
  wallet : jsval;
  subscription : jsval;
  subscriptionStatus : jsval;
  loading : gmap string bool;
  error : jsval;
  success : jsval;
  showBackendPanel : bool;
  subscriptionAmount : string;
  isEditingAmount : bool;
  chargeAmount : string;
  recipientAddress : string
}.

Definition initial_state : State :=
  {| wallet := JNull; subscription := JNull; subscriptionStatus := JNull;
     loading := ∅; error := JNull; success := JNull;
     showBackendPanel := false; subscriptionAmount := "29.99";
     isEditingAmount := false; chargeAmount := "1.00";
     recipientAddress := "" |}.

(** [loading.name], a boolean or [undefined], taken as a condition. *)
Definition flag (l : gmap string bool) (name : string) : bool :=
  default false (l !! name).

(** A callback handed to [setTimeout]: a call of the [handleGetStatus] of
    the render whose state is [closure]. *)
Inductive timer : Type :=
| CallGetStatus (closure : State) (subscriptionId : jsval).

(** What the controller asks of the outside. *)
Inductive io : Type :=
| Fetch (url method : string) (headers : list (string * string))
        (body : option json_text)
| Subscribe (options : jsval)      (* base.subscription.subscribe *)
| GetStatus (options : jsval)      (* base.subscription.getStatus *)
| SetTimeout (callback : timer) (ms : Z).

(** What [await fetch(...)] gives back. *)
Inductive fetch_result : Type :=
| Rejected (e : jsval)
| Responded (status : Z) (body : json_text).

(** [response.ok] *)
Definition ok (status : Z) : bool := (200 <=? status)%Z && (status <=? 299)%Z.

Record World : Type := {
  state : State;
  localStorage : gmap string json_text;
  log : list io
}.

Definition with_state (f : State -> State) : M World unit :=
  modify (fun w => {| state := f (state w);
                      localStorage := localStorage w; log := log w |}).

Definition setWallet (v : jsval) : M World unit :=
  with_state (fun s =>
    {| wallet := v; subscription := subscription s;
       subscriptionStatus := subscriptionStatus s; loading := loading s;
       error := error s; success := success s;
       showBackendPanel := showBackendPanel s;
       subscriptionAmount := subscriptionAmount s;
       isEditingAmount := isEditingAmount s;
       chargeAmount := chargeAmount s;
       recipientAddress := recipientAddress s |}).

Definition setSubscription (v : jsval) : M World unit :=
  with_state (fun s =>
    {| wallet := wallet s; subscription := v;
       subscriptionStatus := subscriptionStatus s; loading := loading s;
       error := error s; success := success s;
       showBackendPanel := showBackendPanel s;
       subscriptionAmount := subscriptionAmount s;
       isEditingAmount := isEditingAmount s;
       chargeAmount := chargeAmount s;
       recipientAddress := recipientAddress s |}).

Definition setSubscriptionStatus (v : jsval) : M World unit :=
  with_state (fun s =>
    {| wallet := wallet s; subscription := subscription s;
       subscriptionStatus := v; loading := loading s;
       error := error s; success := success s;
       showBackendPanel := showBackendPanel s;
       subscriptionAmount := subscriptionAmount s;
       isEditingAmount := isEditingAmount s;
       chargeAmount := chargeAmount s;
       recipientAddress := recipientAddress s |}).

(** [setLoading(prev => f prev)]; [setLoading(v)] is [setLoading_with (fun _ => v)]. *)
Definition setLoading_with (f : gmap string bool -> gmap string bool)
  : M World unit :=
  with_state (fun s =>
    {| wallet := wallet s; subscription := subscription s;
       subscriptionStatus := subscriptionStatus s; loading := f (loading s);
       error := error s; success := success s;
       showBackendPanel := showBackendPanel s;
       subscriptionAmount := subscriptionAmount s;
       isEditingAmount := isEditingAmount s;
       chargeAmount := chargeAmount s;
       recipientAddress := recipientAddress s |}).

Definition setLoading (v : gmap string bool) : M World unit :=
  setLoading_with (fun _ => v).

Definition setError (v : jsval) : M World unit :=
  with_state (fun s =>
    {| wallet := wallet s; subscription := subscription s;
       subscriptionStatus := subscriptionStatus s; loading := loading s;
       error := v; success := success s;
       showBackendPanel := showBackendPanel s;
       subscriptionAmount := subscriptionAmount s;
       isEditingAmount := isEditingAmount s;
       chargeAmount := chargeAmount s;
       recipientAddress := recipientAddress s |}).

Definition setSuccess (v : jsval) : M World unit :=
  with_state (fun s =>
    {| wallet := wallet s; subscription := subscription s;
       subscriptionStatus := subscriptionStatus s; loading := loading s;
       error := error s; success := v;
       showBackendPanel := showBackendPanel s;
       subscriptionAmount := subscriptionAmount s;
       isEditingAmount := isEditingAmount s;
       chargeAmount := chargeAmount s;
       recipientAddress := recipientAddress s |}).

Definition localStorage_getItem (key : string) : M World (option json_text) :=
  fun w => (w, Normal (localStorage w !! key)).

Definition localStorage_setItem (key : string) (value : json_text)
  : M World unit :=
  modify (fun w => {| state := state w;
                      localStorage := <[key := value]> (localStorage w);
                      log := log w |}).

Definition localStorage_removeItem (key : string) : M World unit :=
  modify (fun w => {| state := state w;
                      localStorage := delete key (localStorage w);
                      log := log w |}).

Definition emit (r : io) : M World unit :=
  modify (fun w => {| state := state w; localStorage := localStorage w;
                      log := log w ++ [r] |}).

(** The await of a [fetch]: the response, or the rejection thrown. *)
Definition awaited (r : fetch_result) : M World (Z * json_text) :=
  match r with
  | Rejected e => throw e
  | Responded status body => ret (status, body)
  end.

(** The number literals of the source as doubles. *)
Definition number (z : Z) : jsval := JNum (binary_normalize 53 1024 z 0 false).

Definition json_headers : list (string * string) :=
  [("Content-Type", "application/json")].

Section Handlers.

(** ToString of a value, as [new Error(v)] and template literals apply it. *)
Variable ToString : jsval -> string.

(** [new Error(v)]: the message is [ToString v]; no message when [v] is
    [undefined] (reading it then gives the empty string). *)
Definition new_Error (v : jsval) : jsval :=
  match v with
  | JStr s => js_Error s
  | JUndefined => js_Error ""
  | _ => js_Error (ToString v)
  end.

(** Every handler is an [async] function of the render it was created
    in: [c] is that render's state, which the handler's closure reads.
    A handler runs up to its [await] ([_begin], which logs the request)
    and continues when the awaited result arrives ([_resume]).  The
    setters write to the live state of the [World]. *)

(** *** First effect: load wallet and subscription from localStorage *)
Definition loadStored : M World unit :=
  storedWallet <- localStorage_getItem "bbq-wallet" ;;
  match storedWallet with
  | Some text =>
      if text_truthy text then
        try_catch
          (parsedWallet <- lift (JSON_parse text) ;;
           setWallet parsedWallet)
          (fun err => localStorage_removeItem "bbq-wallet")
      else ret tt
  | None => ret tt
  end ;;;
  storedSubscription <- localStorage_getItem "bbq-subscription" ;;
  match storedSubscription with
  | Some text =>
      if text_truthy text then
        try_catch
          (parsedSubscription <- lift (JSON_parse text) ;;
           setSubscription parsedSubscription)
          (fun err => ret tt)
      else ret tt
  | None => ret tt
  end.

(** *** Second effect: [checkStatus], dependencies [[subscription?.id]] *)
Definition checkStatus_begin (c : State) : M World unit :=
  if truthy (subscription c) && negb (truthy (subscriptionStatus c))
     && negb (flag (loading c) "status")
  then
    setLoading_with (fun prev => <["status" := true]> prev) ;;;
    setError JNull ;;;
    (* subscription is truthy here, so reading its id cannot throw *)
    emit (GetStatus (JObj [("id", get_prop (subscription c) "id");
                           ("testnet", JBool true)]))
  else ret tt.

Definition checkStatus_resume (r : completion jsval) : M World unit :=
  try_finally
    (try_catch
       (status <- lift r ;;
        setSubscriptionStatus status)
       (fun err =>
          message <- lift (member err "message") ;;
          setError (js_or message (JStr "Failed to get subscription status"))))
    (setLoading_with (fun prev => <["status" := false]> prev)).

(** *** Create Wallet *)
Definition handleCreateWallet_begin (c : State) : M World unit :=
  setLoading (<["wallet" := true]> (loading c)) ;;;
  setError JNull ;;;
  setSuccess JNull ;;;
  emit (Fetch "/API/create-wallet" "POST" [] None).

Definition handleCreateWallet_resume (c : State) (r : fetch_result)
  : M World unit :=
  try_finally
    (try_catch
       (response <- awaited r ;;
        if negb (ok (fst response)) then
          throw (new_Error (JStr "Failed to create wallet"))
        else
          data <- lift (JSON_parse (snd response)) ;;
          setWallet data ;;;
          (* Store wallet in localStorage *)
          localStorage_setItem "bbq-wallet" (JSON_stringify data) ;;;
          setSuccess (JStr "Wallet created successfully!"))
       (fun err =>
          message <- lift (member err "message") ;;
          setError (js_or message (JStr "Failed to create wallet"))))
    (setLoading (<["wallet" := false]> (loading c))).

(** *** Get Subscription Status *)
Definition handleGetStatus_begin (c : State) (subscriptionId : jsval)
  : M World unit :=
  let id := js_or subscriptionId (opt_member (subscription c) "id") in
  if negb (truthy id) then
    setError (JStr "No subscription created yet")
  else
    setLoading (<["status" := true]> (loading c)) ;;;
    setError JNull ;;;
    emit (GetStatus (JObj [("id", id); ("testnet", JBool true)])).

Definition handleGetStatus_resume (c : State) (r : completion jsval)
  : M World unit :=
  try_finally
    (try_catch
       (status <- lift r ;;
        setSubscriptionStatus status)
       (fun err =>
          message <- lift (member err "message") ;;
          setError (js_or message (JStr "Failed to get subscription status"))))
    (setLoading (<["status" := false]> (loading c))).

(** *** Create Subscription *)
Definition handleCreateSubscription_begin (c : State) : M World unit :=
  if negb (truthy (wallet c)) then
    setError (JStr "Please create a wallet first")
  else
    setLoading (<["subscription" := true]> (loading c)) ;;;
    setError JNull ;;;
    setSuccess JNull ;;;
    (* wallet is truthy here, so reading its address cannot throw *)
    emit (Subscribe
            (JObj [("recurringCharge", JStr (subscriptionAmount c));
                   ("subscriptionOwner", get_prop (wallet c) "address");
                   ("periodInDays", number 30);
                   ("testnet", JBool true)])).

Definition handleCreateSubscription_resume (c : State) (r : completion jsval)
  : M World unit :=
  try_finally
    (try_catch
       (subscription <- lift r ;;
        id <- lift (member subscription "id") ;;
        subscriptionPayer <- lift (member subscription "subscriptionPayer") ;;
        recurringCharge <- lift (member subscription "recurringCharge") ;;
        periodInDays <- lift (member subscription "periodInDays") ;;
        let subscriptionData :=
          JObj [("id", id);
                ("subscriptionPayer", subscriptionPayer);
                ("recurringCharge", recurringCharge);
                ("periodInDays", periodInDays)] in
        setSubscription subscriptionData ;;;
        localStorage_setItem "bbq-subscription"
          (JSON_stringify subscriptionData) ;;;
        setSuccess (JStr "Subscription created successfully!") ;;;
        (* Auto-check status after creation *)
        emit (SetTimeout (CallGetStatus c (get_prop subscription "id")) 2000))
       (fun err =>
          message <- lift (member err "message") ;;
          setError (js_or message (JStr "Failed to create subscription"))))
    (setLoading (<["subscription" := false]> (loading c))).

(** *** Charge Subscription *)
Definition handleChargeSubscription_begin (c : State) : M World unit :=
  if negb (truthy (wallet c)) || negb (truthy (subscription c)) then
    setError (JStr "Please create a wallet and subscription first")
  else
    setLoading (<["charge" := true]> (loading c)) ;;;
    setError JNull ;;;
    setSuccess JNull ;;;
    emit (Fetch "/API/charge-subscription" "POST" json_headers
            (Some (JSON_stringify
                     (JObj [("subscriptionId", get_prop (subscription c) "id");
                            ("amount", JStr (chargeAmount c));
                            ("recipient",
                              js_or (JStr (recipientAddress c)) JUndefined)])))).

Definition handleChargeSubscription_resume (c : State) (r : fetch_result)
  : M World unit :=
  try_finally
    (try_catch
       (response <- awaited r ;;
        data <- lift (JSON_parse (snd response)) ;;
        if negb (ok (fst response)) then
          (* Handle structured error responses from the API *)
          data_error <- lift (member data "error") ;;
          data_message <- lift (member data "message") ;;
          data_details <- lift (member data "details") ;;
          if strict_eq_str data_error "Insufficient Gas" then
            setError (JObj [("title", data_error);
                            ("message", data_message);
                            ("details", data_details);
                            ("type", JStr "gas")])
          else if truthy data_error then
            setError (JObj [("title", data_error);
                            ("message", js_or data_message data_error);
                            ("details", data_details);
                            ("type", JStr "error")])
          else
            throw (new_Error
                     (js_or data_error (JStr "Failed to charge subscription")))
        else
          data_success <- lift (member data "success") ;;
          data_message <- lift (member data "message") ;;
          data_amount <- lift (member data "amount") ;;
          if truthy data_success then
            setSuccess
              (js_or data_message
                 (JStr ("Successfully charged $" ++ ToString data_amount)%string)) ;;;
            (* Refresh status after charge *)
            emit (SetTimeout (CallGetStatus c JUndefined) 2000)
          else
            setError (js_or data_message (JStr "Failed to charge subscription")))
       (fun err =>
          message <- lift (member err "message") ;;
          setError (js_or message (JStr "Failed to charge subscription"))))
    (setLoading (<["charge" := false]> (loading c))).

(** *** Revoke Subscription *)
Definition handleRevokeSubscription_begin (c : State) : M World unit :=
  if negb (truthy (subscription c)) then
    setError (JStr "No subscription to revoke")
  else
    setLoading (<["revoke" := true]> (loading c)) ;;;
    setError JNull ;;;
    setSuccess JNull ;;;
    emit (Fetch "/API/revoke-subscription" "POST" json_headers
            (Some (JSON_stringify
                     (JObj [("subscriptionId",
                              get_prop (subscription c) "id")])))).

Definition handleRevokeSubscription_resume (c : State) (r : fetch_result)
  : M World unit :=
  try_finally
    (try_catch
       (response <- awaited r ;;
        data <- lift (JSON_parse (snd response)) ;;
        if negb (ok (fst response)) then
          data_error <- lift (member data "error") ;;
          throw (new_Error
                   (js_or data_error (JStr "Failed to revoke subscription")))
        else
          setSuccess (JStr "Subscription revoked successfully! You can still try to charge to validate the revoke took effect.") ;;;
          (* Don't clear subscription data - keep it so user can try to
             charge and validate revoke worked *)
          emit (SetTimeout (CallGetStatus c JUndefined) 2000))
       (fun err =>
          message <- lift (member err "message") ;;
          setError (js_or message (JStr "Failed to revoke subscription"))))
    (setLoading (<["revoke" := false]> (loading c))).

End Handlers.

(** *** What the render shows of the state *)

(** The [disabled] attribute of the five buttons. *)
Definition createWallet_disabled (s : State) : bool :=
  flag (loading s) "wallet" || truthy (wallet s).
Definition chargeSubscription_disabled (s : State) : bool :=
  flag (loading s) "charge" || negb (truthy (wallet s))
  || negb (truthy (subscription s)).
Definition revokeSubscription_disabled (s : State) : bool :=
  flag (loading s) "revoke" || negb (truthy (subscription s)).
Definition createSubscription_disabled (s : State) : bool :=
  flag (loading s) "subscription" || truthy (subscription s).
Definition getStatus_disabled (s : State) : bool :=
  flag (loading s) "status".

(** A click on a button whose [onClick] is [handler]: nothing when the
    button is disabled, else the handler of the current render. *)
Definition click (disabled : State -> bool) (handler : State -> M World unit)
  : M World unit :=
  fun w => if disabled (state w) then (w, Normal tt) else handler (state w) w.

(** The error alert: its colour and the texts it shows, in order. *)
Record ErrorAlert : Type := {
  yellow : bool;
  texts : list jsval
}.

Definition render_error (s : State) : option ErrorAlert :=
  let error := error s in
  if truthy error then
    Some
      {| yellow :=
           typeof_object error && strict_eq_str (get_prop error "type") "gas";
         texts :=
           if typeof_object error then
             [get_prop error "title"; get_prop error "message"]
             ++ (if truthy (get_prop error "details")
                 then [get_prop error "details"] else [])
             ++ (if truthy (js_and (JBool (strict_eq_str (get_prop error "type") "gas"))
                                   (wallet s))
                 then [JStr "Server wallet address:";
                       get_prop (wallet s) "address"]
                 else [])
           else [error] |}
  else None.

(** *** The mounted component and its effects *)

(** The live world, and the dependency value [subscription?.id] with which
    the [checkStatus] effect last ran. *)
Record Component : Type := {
  world : World;
  checkStatus_dep : jsval
}.

(** The first render shows [initial_state]; both effects then run with
    that render's closure. *)
Definition first_commit (storage : gmap string json_text) : Component :=
  let w0 := {| state := initial_state; localStorage := storage; log := [] |} in
  let w1 := fst (loadStored w0) in
  let w2 := fst (checkStatus_begin initial_state w1) in
  {| world := w2;
     checkStatus_dep := opt_member (subscription initial_state) "id" |}.

(** A later render of the live state: the first effect (dependencies [[]])
    never runs again; [checkStatus] runs again, with the new closure, when
    [subscription?.id] is not the value it last ran with. *)
Definition rerender (cmp : Component) : Component :=
  let s := state (world cmp) in
  let dep := opt_member (subscription s) "id" in
  if Object_is (checkStatus_dep cmp) dep then cmp
  else {| world := fst (checkStatus_begin s (world cmp));
          checkStatus_dep := dep |}.

(** Mounting: the first commit, then the render of the state the effects
    have set. *)
Definition mount (storage : gmap string json_text) : Component :=
  rerender (first_commit storage).

(** What can happen to the mounted component without the user: it renders
    again, or the status fetch of the effect settles (and the state it
    sets is rendered). *)
Inductive passive : Type :=
| Render
| StatusSettled (r : completion jsval).

Definition passive_step (cmp : Component) (ev : passive) : Component :=
  match ev with
  | Render => rerender cmp
  | StatusSettled r =>
      rerender {| world := fst (checkStatus_resume r (world cmp));
                  checkStatus_dep := checkStatus_dep cmp |}
  end.

End SubscriptionManager.

(** ** Sample data: a platform, a browser state *)

Module Sample.
Import JS.

(** ToString on the values the samples print. *)
Definition to_string (v : jsval) : string :=
  match v with
  | JStr s => s
  | JUndefined => "undefined"
  | JNull => "null"
  | JBool true => "true"
  | JBool false => "false"
  | _ => "[object Object]"
  end.

Definition env : gmap string string :=
  {[ "CDP_API_KEY_ID" := "key-id";
     "CDP_API_KEY_SECRET" := "key-secret";
     "CDP_WALLET_SECRET" := "wallet-secret" ]}.

(** A platform on which every charge and every revoke goes through. *)
Definition charge_ok (options : jsval) : completion jsval :=
  Normal (JObj [("id", JStr "0xtx");
                ("amount", get_prop options "amount");
                ("subscriptionOwner", JStr "0xowner");
                ("subscriptionId", get_prop options "id")]).
Definition revoke_ok (options : jsval) : completion jsval :=
  Normal (JStr "0xrevoked").

(** A platform that throws an [Error] with the given message. *)
Definition throws (message : string) (options : jsval) : completion jsval :=
  Throw (js_Error message).

Definition wallet_info : jsval :=
  JObj [("address", JStr "0xowner"); ("walletName", JStr "bbq-sub-v1")].

Definition subscription_info : jsval :=
  JObj [("id", JStr "0xsub");
        ("subscriptionPayer", JStr "0xpayer");
        ("recurringCharge", JStr "29.99");
        ("periodInDays", SubscriptionManager.number 30)].

(** A browser in which wallet and subscription exist and nothing is in
    flight. *)
Definition subscribed : SubscriptionManager.World :=
  {| SubscriptionManager.state :=
       {| SubscriptionManager.wallet := wallet_info;
          SubscriptionManager.subscription := subscription_info;
          SubscriptionManager.subscriptionStatus := JNull;
          SubscriptionManager.loading := ∅;
          SubscriptionManager.error := JNull;
          SubscriptionManager.success := JNull;
          SubscriptionManager.showBackendPanel := false;
          SubscriptionManager.subscriptionAmount := "29.99";
          SubscriptionManager.isEditingAmount := false;
          SubscriptionManager.chargeAmount := "1.00";
          SubscriptionManager.recipientAddress := "" |};
     SubscriptionManager.localStorage :=
       {[ "bbq-wallet" := Wellformed wallet_info;
          "bbq-subscription" := Wellformed subscription_info ]};
     SubscriptionManager.log := [] |}.

(** A browser on its first visit. *)
Definition fresh : SubscriptionManager.World :=
  {| SubscriptionManager.state := SubscriptionManager.initial_state;
     SubscriptionManager.localStorage := ∅;
     SubscriptionManager.log := [] |}.

End Sample.

(** ** [app/API/create-wallet/route.ts] *)

Module CreateWalletRoute.
Import JS Server.
Local Open Scope js_scope.

Definition WALLET_NAME : string := "bbq-sub-v1".

Section WithPlatform.

Variable env : gmap string string.
(** The SDK's wallet provisioning operation. *)
Variable getOrCreateSubscriptionOwnerWallet : jsval -> completion jsval.

(** The handler's log holds the options object of each provisioning call. *)
Definition base_subscription_getOrCreateSubscriptionOwnerWallet
    (options : jsval) : M (list jsval) jsval :=
  fun log => (log ++ [options], getOrCreateSubscriptionOwnerWallet options).

(** The handler takes no request. *)
Definition POST : M (list jsval) Response :=
  try_catch
    (owner <-
       base_subscription_getOrCreateSubscriptionOwnerWallet
         (JObj [("cdpApiKeyId", process_env env "CDP_API_KEY_ID");
                ("cdpApiKeySecret", process_env env "CDP_API_KEY_SECRET");
                ("cdpWalletSecret", process_env env "CDP_WALLET_SECRET");
                ("walletName", JStr WALLET_NAME)]) ;;
     address <- lift (member owner "address") ;;
     walletName <- lift (member owner "walletName") ;;
     ret (NextResponse_json
            (JObj [("address", address);
                   ("walletName", walletName);
                   ("message",
                     JStr "CDP smart wallet ready for subscription management")])
            200))
    (fun error =>
       message <- lift (member error "message") ;;
       ret (NextResponse_json
              (JObj [("error",
                       js_or message (JStr "Failed to create/retrieve wallet"))])
              500)).

End WithPlatform.
End CreateWalletRoute.

(** ** The three routes and the controller put together *)

Module App.
Import JS SubscriptionManager.

(** What [fetch] resolves with when the route handler returned [resp]:
    its status, and the JSON text of its body. *)
Definition delivered (resp : Server.Response) : fetch_result :=
  Responded (Server.status resp) (JSON_stringify (Server.body resp)).

(** A timer set by [setTimeout] fires: the callback runs. *)
Definition fire (t : timer) : M World unit :=
  match t with
  | CallGetStatus closure subscriptionId =>
      handleGetStatus_begin closure subscriptionId
  end.

(** Every piece of controller code that can run on the live state: the two
    effects, and each handler up to its [await] and after it.  The closure
    and the awaited result are those of the step. *)
Inductive action : Type :=
| LoadStored
| CheckStatusBegin (c : State)
| CheckStatusResume (r : completion jsval)
| CreateWalletBegin (c : State)
| CreateWalletResume (c : State) (r : fetch_result)
| GetStatusBegin (c : State) (subscriptionId : jsval)
| GetStatusResume (c : State) (r : completion jsval)
| CreateSubscriptionBegin (c : State)
| CreateSubscriptionResume (c : State) (r : completion jsval)
| ChargeBegin (c : State)
| ChargeResume (c : State) (r : fetch_result)
| RevokeBegin (c : State)
| RevokeResume (c : State) (r : fetch_result).

Definition perform (ToString : jsval -> string) (a : action) : M World unit :=
  match a with
  | LoadStored => loadStored
  | CheckStatusBegin c => checkStatus_begin c
  | CheckStatusResume r => checkStatus_resume r
  | CreateWalletBegin c => handleCreateWallet_begin c
  | CreateWalletResume c r => handleCreateWallet_resume ToString c r
  | GetStatusBegin c subscriptionId => handleGetStatus_begin c subscriptionId
  | GetStatusResume c r => handleGetStatus_resume c r
  | CreateSubscriptionBegin c => handleCreateSubscription_begin c
  | CreateSubscriptionResume c r => handleCreateSubscription_resume c r
  | ChargeBegin c => handleChargeSubscription_begin c
  | ChargeResume c r => handleChargeSubscription_resume ToString c r
  | RevokeBegin c => handleRevokeSubscription_begin c
  | RevokeResume c r => handleRevokeSubscription_resume ToString c r
  end.

(** The live world after a sequence of such steps. *)
Definition perform_all (ToString : jsval -> string) (steps : list action)
    (w : World) : World :=
  fold_left (fun w a => fst (perform ToString a w)) steps w.

(** A handler step on the mounted component, and the render of the state
    it leaves. *)
Definition then_render (step : M World unit) (cmp : Component) : Component :=
  rerender {| world := fst (step (world cmp));
              checkStatus_dep := checkStatus_dep cmp |}.

(** The properties an object keeps through [JSON.stringify] and
    [JSON.parse]. *)
Definition wire_props (ps : list (string * jsval)) : list (string * jsval) :=
  match json_wire (JObj ps) with
  | JObj qs => qs
  | _ => []
  end.

(** The requests the controller may send: a POST to one of the three
    routes, a platform call flagged testnet, or the two-second timer. *)
Definition expected_io (r : io) : bool :=
  match r with
  | Fetch url method _ _ =>
      ((url =? "/API/create-wallet") || (url =? "/API/charge-subscription")
       || (url =? "/API/revoke-subscription"))
      && (method =? "POST")
  | Subscribe options | GetStatus options =>
      match get_prop options "testnet" with JBool true => true | _ => false end
  | SetTimeout _ ms => (ms =? 2000)%Z
  end.

End App.

(** ** More sample data *)

Module MoreSamples.
Import JS SubscriptionManager.

(** A platform that provisions the sample wallet. *)
Definition provision_ok (options : jsval) : completion jsval :=
  Normal (JObj [("address", JStr "0xowner");
                ("walletName", get_prop options "walletName")]).

(** A browser that has a wallet and nothing else, and its mounted
    component at rest. *)
Definition with_wallet : World :=
  {| state :=
       {| wallet := Sample.wallet_info; subscription := JNull;
          subscriptionStatus := JNull; loading := ∅;
          error := JNull; success := JNull;
          showBackendPanel := false; subscriptionAmount := "29.99";
          isEditingAmount := false; chargeAmount := "1.00";
          recipientAddress := "" |};
     localStorage := {[ "bbq-wallet" := Wellformed Sample.wallet_info ]};
     log := [] |}.

Definition mounted_with_wallet : Component :=
  {| world := with_wallet; checkStatus_dep := JUndefined |}.

(** A browser whose stored subscription record had no id. *)
Definition subscribed_without_id : World :=
  {| state :=
       {| wallet := Sample.wallet_info; subscription := JObj [];
          subscriptionStatus := JNull; loading := ∅;
          error := JNull; success := JNull;
          showBackendPanel := false; subscriptionAmount := "29.99";
          isEditingAmount := false; chargeAmount := "1.00";
          recipientAddress := "" |};
     localStorage := {[ "bbq-wallet" := Wellformed Sample.wallet_info;
                        "bbq-subscription" := Wellformed (JObj []) ]};
     log := [] |}.

(** localStorage holding two records that are not JSON. *)
Definition broken_storage : gmap string json_text :=
  {[ "bbq-wallet" := Malformed "{address:";
     "bbq-subscription" := Malformed "{id:" ]}.

(** A charge request with an empty amount and a recipient. *)
Definition charge_request : json_text :=
  Wellformed (JObj [("subscriptionId", JStr "0xsub");
                    ("amount", JStr "");
                    ("recipient", JStr "0xshop")]).

Definition revoke_request : json_text :=
  Wellformed (JObj [("subscriptionId", JStr "0xsub")]).


(** A browser that restored a subscription and has no wallet, once the
    status check of the mount has settled. *)
Definition subscription_only : World :=
  {| state :=
       {| wallet := JNull; subscription := Sample.subscription_info;
          subscriptionStatus := JNull; loading := {[ "status" := false ]};
          error := JNull; success := JNull;
          showBackendPanel := false; subscriptionAmount := "29.99";
          isEditingAmount := false; chargeAmount := "1.00";
          recipientAddress := "" |};
     localStorage :=
       {[ "bbq-subscription" := Wellformed Sample.subscription_info ]};
     log := [] |}.

(** The revoke route's answer to a request that went through. *)
Definition revoke_answer : fetch_result :=
  Responded 200
    (Wellformed (JObj [("success", JBool true);
                       ("subscriptionId", JStr "0xsub");
                       ("message", JStr "Subscription revoked successfully");
                       ("revokeResult", JStr "0xrevoked")])).

End MoreSamples.

(** ** Proof steps shared below *)

(** Unfolds the effect combinators, so that a handler run computes. *)
Ltac run :=
  unfold JS.try_finally, JS.try_catch, JS.bind, JS.lift, JS.ret, JS.throw,
    JS.modify;
  simpl.

(** The same for the controller, whose setters are unfolded first. *)
Ltac run_ui :=
  unfold SubscriptionManager.setLoading, SubscriptionManager.setLoading_with,
    SubscriptionManager.setWallet, SubscriptionManager.setSubscription,
    SubscriptionManager.setSubscriptionStatus, SubscriptionManager.setError,
    SubscriptionManager.setSuccess, SubscriptionManager.emit,
    SubscriptionManager.with_state,
    SubscriptionManager.localStorage_setItem,
    SubscriptionManager.localStorage_getItem,
    SubscriptionManager.localStorage_removeItem,
    SubscriptionManager.awaited;
  run.

(** Case analysis on whatever the goal still branches on. *)
Ltac crunch :=
  repeat (simpl;
          match goal with
          | |- context [match ?x with _ => _ end] => is_var x; destruct x
          | |- context [JS.JSON_parse ?t] => is_var t; destruct t
          | |- context [JS.text_truthy ?t] => is_var t; destruct t
          | |- context [match ?x with _ => _ end] =>
              lazymatch x with
              | context [match _ with _ => _ end] => fail
              | _ => destruct x eqn:?
              end
          end);
  simpl.

(** Unfolds a controller step down to the effect combinators. *)
Ltac run_action :=
  unfold App.perform, SubscriptionManager.loadStored,
    SubscriptionManager.checkStatus_begin,
    SubscriptionManager.checkStatus_resume,
    SubscriptionManager.handleCreateWallet_begin,
    SubscriptionManager.handleCreateWallet_resume,
    SubscriptionManager.handleGetStatus_begin,
    SubscriptionManager.handleGetStatus_resume,
    SubscriptionManager.handleCreateSubscription_begin,
    SubscriptionManager.handleCreateSubscription_resume,
    SubscriptionManager.handleChargeSubscription_begin,
    SubscriptionManager.handleChargeSubscription_resume,
    SubscriptionManager.handleRevokeSubscription_begin,
    SubscriptionManager.handleRevokeSubscription_resume,
    JS.member;
  run_ui.

(** * Properties

    Each property is labelled with the identifier (C1 to C10) of the
    statement of the specification it settles. *)

Import JS.

(** ** Facts about the value model *)

Lemma destructure_Normal v k x :
  destructure v k = Normal x -> nullish v = false /\ x = get_prop v k.
Proof.
  unfold destructure. destruct (nullish v); [discriminate|].
  intros [= <-]. split; reflexivity.
Qed.

Lemma js_or_truthy a b : truthy b = true -> truthy (js_or a b) = true.
Proof. intros Hb. unfold js_or. destruct (truthy a) eqn:Ha; assumption. Qed.

Lemma strict_eq_str_true v s : strict_eq_str v s = true <-> v = JStr s.
Proof.
  destruct v; simpl; split; try discriminate.
  - intros H. apply String.eqb_eq in H. congruence.
  - intros [= ->]. apply String.eqb_refl.
Qed.

Lemma strict_eq_str_false v s : v <> JStr s -> strict_eq_str v s = false.
Proof.
  intros Hne. destruct (strict_eq_str v s) eqn:H; [|reflexivity].
  apply strict_eq_str_true in H. contradiction.
Qed.

Lemma float_same_refl x : float_same x x = true.
Proof.
  destruct x as [s|s| |s m e]; simpl; try reflexivity.
  - apply Bool.eqb_reflx.
  - apply Bool.eqb_reflx.
  - rewrite Bool.eqb_reflx, Pos.eqb_refl, Z.eqb_refl. reflexivity.
Qed.

(** A value is the same as itself, at any depth. *)
Lemma Object_is_refl : forall v, Object_is v v = true.
Proof.
  fix IH 1. intros [ | |b|n|s|xs|ps]; simpl; try reflexivity.
  - apply Bool.eqb_reflx.
  - apply float_same_refl.
  - apply String.eqb_refl.
  - induction xs as [|x xs IHxs]; [reflexivity|].
    rewrite (IH x). exact IHxs.
  - induction ps as [|[k x] ps IHps]; [reflexivity|].
    rewrite String.eqb_refl, (IH x). exact IHps.
Qed.

Lemma Object_is_undefined v : v <> JUndefined -> Object_is JUndefined v = false.
Proof. destruct v; simpl; congruence. Qed.

(** ** Request handlers *)

Lemma log_grows_not_same {A} (l : list A) (x : A) : l ++ [x] <> l.
Proof.
  intros H. apply (f_equal (@length A)) in H.
  rewrite length_app in H. simpl in H. lia.
Qed.

Lemma log_last_inj {A} (l : list A) (x y : A) : l ++ [x] = l ++ [y] -> x = y.
Proof. intros H. apply app_inv_head in H. congruence. Qed.

Section ChargeRouteFacts.
Import Server ChargeRoute.
Variable ToString : jsval -> string.
Variable env : gmap string string.
Variable charge : jsval -> completion jsval.

(** Every run of the handler ends in one of four ways. *)
Lemma charge_POST_outcomes (request : json_text) (log : list call) :
  let out := snd (POST ToString env charge request log) in
  out = Normal {| status := 400;
                  body := JObj [("error", JStr "Missing subscriptionId")] |}
  \/ (exists rest,
        out = Normal {| status := 200;
                        body := JObj (("success", JBool true) :: rest) |})
  \/ (exists message,
        out = Normal {| status := 500;
                        body := JObj [("success", JBool false);
                                      ("error",
                                        js_or message
                                          (JStr "Failed to charge subscription"))] |})
  \/ ((exists thrown, out = Throw thrown)
      /\ exists options e, charge options = Throw e /\ nullish e = true).
Proof.
  unfold POST. run. unfold base_subscription_charge, destructure, member.
  destruct request as [json|raw]; simpl; [|right; right; left; eauto].
  destruct (nullish json) eqn:Hj; simpl; [right; right; left; eauto|].
  destruct (truthy (get_prop json "subscriptionId")); simpl; [|left; reflexivity].
  match goal with |- context [charge ?o] => destruct (charge o) as [res|e] eqn:Hc end;
    simpl.
  - destruct (nullish res); simpl; [right; right; left; eauto|].
    right; left; eauto.
  - destruct (nullish e) eqn:He; simpl; [right; right; right; eauto 6|].
    right; right; left; eauto.
Qed.

(** C1. A request body whose subscriptionId is missing or empty is
    answered with status 400 and the body
    [{ error: 'Missing subscriptionId' }], and the call log is left as it
    was: the platform charge operation is not called.  A request with a
    non-empty (truthy) subscriptionId and no amount makes exactly one
    platform charge call, whose options carry the amount "1.00". *)
Theorem charge_POST_validates_and_defaults
    (request : json_text) (json subscriptionId : jsval) (log : list call) :
  JSON_parse request = Normal json ->
  destructure json "subscriptionId" = Normal subscriptionId ->
  (subscriptionId = JUndefined \/ subscriptionId = JStr "" ->
     POST ToString env charge request log
     = (log, Normal {| status := 400;
                       body := JObj [("error", JStr "Missing subscriptionId")] |}))
  /\ (truthy subscriptionId = true ->
      get_prop json "amount" = JUndefined ->
      exists options,
        fst (POST ToString env charge request log) = log ++ [Charge options]
        /\ get_prop options "id" = subscriptionId
        /\ get_prop options "amount" = JStr "1.00").
Proof.
  intros Hparse Hsid.
  destruct (destructure_Normal _ _ _ Hsid) as [Hnn Hval].
  assert (Hrun : forall k, destructure json k = Normal (get_prop json k)).
  { intros k. unfold destructure. rewrite Hnn. reflexivity. }
  split.
  - intros Hf. unfold POST. run. rewrite Hparse, !Hrun, <- Hval.
    destruct Hf as [-> | ->]; reflexivity.
  - intros Ht Hamount.
    unfold POST. run. rewrite Hparse, !Hrun, <- Hval, Ht, Hamount. simpl.
    unfold base_subscription_charge.
    destruct (truthy (get_prop json "recipient")); simpl;
      (eexists; split;
       [ unfold member;
         destruct (charge _) as [res|e]; simpl;
         [destruct (nullish res); simpl|];
         repeat match goal with
                | |- context [nullish ?v] => destruct (nullish v); simpl
                end; reflexivity
       | split; reflexivity ]).
Qed.

End ChargeRouteFacts.

Section RevokeRouteFacts.
Import Server RevokeRoute.
Variable env : gmap string string.
Variable revoke : jsval -> completion jsval.


End RevokeRouteFacts.

Section PlatformErrors.
Import Server.
Variable ToString : jsval -> string.
Variable env : gmap string string.
Variable charge revoke : jsval -> completion jsval.





End PlatformErrors.

(** ** UI controller *)

Section ControllerFacts.
Import SubscriptionManager.
Variable ToString : jsval -> string.

(** C6. Create Subscription invoked from a render without a wallet: no
    request is logged (the platform subscribe operation is not called),
    the subscription cell is left as it was (absent stays absent), and
    the error banner is set at once, before any await. *)
Theorem createSubscription_without_wallet (c : State) (w : World) :
  truthy (wallet c) = false ->
  let w' := fst (handleCreateSubscription_begin c w) in
  log w' = log w
  /\ subscription (state w') = subscription (state w)
  /\ localStorage w' = localStorage w
  /\ error (state w') = JStr "Please create a wallet first".
Proof.
  intros Hw. unfold handleCreateSubscription_begin. rewrite Hw. simpl.
  repeat split; reflexivity.
Qed.

(** C7. Get Status: when the fetch returns [status], the status cell
    becomes exactly [status], whatever it held before; when the fetch
    throws, the status cell keeps its prior value and the error banner is
    set from the caught value.  Wallet, subscription, success banner and
    localStorage are untouched either way (the busy flag is reset in
    both cases). *)
Theorem getStatus_replaces_or_keeps (c : State) (w : World) :
  (forall status,
      let w' := fst (handleGetStatus_resume c (Normal status) w) in
      subscriptionStatus (state w') = status
      /\ error (state w') = error (state w))
  /\ (forall e,
      let w' := fst (handleGetStatus_resume c (Throw e) w) in
      subscriptionStatus (state w') = subscriptionStatus (state w)
      /\ error (state w')
         = match member e "message" with
           | Normal message =>
               js_or message (JStr "Failed to get subscription status")
           | Throw _ => error (state w)
           end)
  /\ (forall r,
      let w' := fst (handleGetStatus_resume c r w) in
      wallet (state w') = wallet (state w)
      /\ subscription (state w') = subscription (state w)
      /\ success (state w') = success (state w)
      /\ localStorage w' = localStorage w
      /\ log w' = log w
      /\ loading (state w') = <["status" := false]> (loading c))
  /\ (forall subscriptionId,
      let w' := fst (handleGetStatus_begin c subscriptionId w) in
      subscriptionStatus (state w') = subscriptionStatus (state w)).
Proof.
  split; [|split; [|split]].
  - intros status. split; reflexivity.
  - intros e. unfold handleGetStatus_resume. run_ui.
    destruct (member e "message"); split; reflexivity.
  - intros [status|e]; [repeat split; reflexivity|].
    unfold handleGetStatus_resume. run_ui.
    destruct (member e "message"); repeat split; reflexivity.
  - intros subscriptionId. unfold handleGetStatus_begin.
    destruct (truthy _); reflexivity.
Qed.

(** The handler behind the Create Wallet button has no guard of its own:
    from any render it logs the provisioning request. *)
Lemma handleCreateWallet_always_fetches (c : State) (w : World) :
  handleCreateWallet_begin c w
  = ({| state :=
          {| wallet := wallet (state w);
             subscription := subscription (state w);
             subscriptionStatus := subscriptionStatus (state w);
             loading := <["wallet" := true]> (loading c);
             error := JNull; success := JNull;
             showBackendPanel := showBackendPanel (state w);
             subscriptionAmount := subscriptionAmount (state w);
             isEditingAmount := isEditingAmount (state w);
             chargeAmount := chargeAmount (state w);
             recipientAddress := recipientAddress (state w) |};
        localStorage := localStorage w;
        log := log w ++ [Fetch "/API/create-wallet" "POST" [] None] |},
     Normal tt).
Proof. reflexivity. Qed.

(** C3 (as the code has it). While the wallet busy flag
    ([loading.wallet]) is set or a wallet is present, the Create Wallet
    button is disabled, so a click on it changes nothing and logs no
    request.  Starting Create Wallet sets that flag: in the state the
    start leaves, the button is disabled and a click is a no-op.  With the
    flag unset and no wallet the button is enabled, and a click runs the
    handler of the current render.  The guard is this [disabled] attribute
    only: [handleCreateWallet] itself, run from any render on any state,
    logs the provisioning request. *)
Theorem createWallet_guarded_by_button_only (w : World) :
  flag (loading (state w)) "wallet" = true \/ truthy (wallet (state w)) = true ->
  createWallet_disabled (state w) = true
  /\ click createWallet_disabled handleCreateWallet_begin w = (w, Normal tt)
  /\ (forall c,
        log (fst (handleCreateWallet_begin c w))
        = log w ++ [Fetch "/API/create-wallet" "POST" [] None])
  /\ (forall (c : State) (w0 : World),
        let w' := fst (handleCreateWallet_begin c w0) in
        log w' = log w0 ++ [Fetch "/API/create-wallet" "POST" [] None]
        /\ flag (loading (state w')) "wallet" = true
        /\ createWallet_disabled (state w') = true
        /\ click createWallet_disabled handleCreateWallet_begin w' = (w', Normal tt))
  /\ (forall w0 : World,
        flag (loading (state w0)) "wallet" = false ->
        truthy (wallet (state w0)) = false ->
        createWallet_disabled (state w0) = false
        /\ click createWallet_disabled handleCreateWallet_begin w0
           = handleCreateWallet_begin (state w0) w0).
Proof.
  intros Hguard.
  assert (Hdisabled : createWallet_disabled (state w) = true).
  { unfold createWallet_disabled.
    destruct Hguard as [-> | ->]; [reflexivity|apply orb_true_r]. }
  split; [exact Hdisabled|].
  split; [unfold click; rewrite Hdisabled; reflexivity|].
  split; [intros c; rewrite handleCreateWallet_always_fetches; reflexivity|].
  split.
  - intros c w0 w'. subst w'. rewrite handleCreateWallet_always_fetches.
    assert (Hflag : flag (<["wallet" := true]> (loading c)) "wallet" = true).
    { unfold flag. rewrite lookup_insert_eq. reflexivity. }
    split; [reflexivity|]. split; [exact Hflag|].
    unfold click, createWallet_disabled. simpl. rewrite Hflag.
    repeat split.
  - intros w0 Hflag Hwallet.
    unfold click, createWallet_disabled. rewrite Hflag, Hwallet.
    split; reflexivity.
Qed.

(** C5. A revoke that succeeds (the handler answers with an ok status
    and a JSON body) leaves the subscription cell, the wallet cell and
    localStorage exactly as they were; a Charge Subscription started from
    the resulting render passes its guard whenever a wallet is present,
    and logs the charge request for the same subscription id. *)
Theorem revoke_keeps_subscription_and_charge_allowed
    (w : World) (status : Z) (body : json_text) (data : jsval) :
  truthy (subscription (state w)) = true ->
  ok status = true ->
  JSON_parse body = Normal data ->
  let c := state w in
  let w1 := fst (handleRevokeSubscription_begin c w) in
  let w2 :=
    fst (handleRevokeSubscription_resume ToString c (Responded status body) w1) in
  subscription (state w2) = subscription (state w)
  /\ wallet (state w2) = wallet (state w)
  /\ localStorage w2 = localStorage w
  /\ error (state w2) = JNull
  /\ (truthy (wallet (state w)) = true ->
      log (fst (handleChargeSubscription_begin (state w2) w2))
      = log w2
        ++ [Fetch "/API/charge-subscription" "POST" json_headers
              (Some (JSON_stringify
                       (JObj [("subscriptionId",
                                get_prop (subscription (state w)) "id");
                              ("amount", JStr (chargeAmount (state w)));
                              ("recipient",
                                js_or (JStr (recipientAddress (state w)))
                                  JUndefined)])))]).
Proof.
  intros Hsub Hok Hparse c w1 w2.
  subst w2 w1 c.
  unfold handleRevokeSubscription_begin, handleRevokeSubscription_resume.
  rewrite Hsub. run_ui. rewrite Hparse, Hok. simpl.
  repeat split.
  intros Hwallet. unfold handleChargeSubscription_begin. simpl.
  rewrite Hsub, Hwallet. reflexivity.
Qed.

(** The banner Charge Subscription sets for a response that is not ok
    and whose JSON body is [data]. *)
Lemma charge_failure_banner_of
    (c : State) (w : World) (status : Z) (data : jsval) :
  ok status = false ->
  nullish data = false ->
  error (state (fst (handleChargeSubscription_resume ToString c
                       (Responded status (Wellformed data)) w)))
  = let data_error := get_prop data "error" in
    if strict_eq_str data_error "Insufficient Gas" then
      JObj [("title", data_error);
            ("message", get_prop data "message");
            ("details", get_prop data "details");
            ("type", JStr "gas")]
    else if truthy data_error then
      JObj [("title", data_error);
            ("message", js_or (get_prop data "message") data_error);
            ("details", get_prop data "details");
            ("type", JStr "error")]
    else JStr "Failed to charge subscription".
Proof.
  intros Hok Hnn. unfold handleChargeSubscription_resume. run_ui.
  rewrite Hok. simpl. unfold member. rewrite Hnn. simpl.
  destruct (strict_eq_str (get_prop data "error") "Insufficient Gas");
    [reflexivity|].
  destruct (truthy (get_prop data "error")) eqn:Ht; [reflexivity|].
  unfold js_or. rewrite Ht. reflexivity.
Qed.

(** C2. A failure response of the charge handler (status not ok, JSON
    body [data]) handled by Charge Subscription:
    - [data.error === "Insufficient Gas"]: the banner is an ErrorInfo of
      type "gas"; rendered in a state that has a wallet, the alert is the
      yellow one and shows that wallet's address;
    - any other truthy [data.error]: the banner is an ErrorInfo of type
      "error", shown in the red alert;
    - a body without an error field: the banner is the plain string of
      the thrown generic error. *)
Theorem charge_failure_banner
    (c : State) (w : World) (status : Z) (body : json_text) (data : jsval) :
  ok status = false ->
  JSON_parse body = Normal data ->
  let w' :=
    fst (handleChargeSubscription_resume ToString c (Responded status body) w) in
  (member data "error" = Normal (JStr "Insufficient Gas") ->
     get_prop (error (state w')) "type" = JStr "gas"
     /\ (truthy (wallet (state w)) = true ->
         exists alert,
           render_error (state w') = Some alert
           /\ yellow alert = true
           /\ In (get_prop (wallet (state w')) "address") (texts alert)))
  /\ (forall data_error,
        member data "error" = Normal data_error ->
        truthy data_error = true ->
        data_error <> JStr "Insufficient Gas" ->
        get_prop (error (state w')) "type" = JStr "error"
        /\ get_prop (error (state w')) "title" = data_error
        /\ exists alert,
             render_error (state w') = Some alert /\ yellow alert = false)
  /\ (forall props,
        data = JObj props ->
        alist_get "error" props = None ->
        error (state w') = JStr "Failed to charge subscription").
Proof.
  intros Hok Hparse w'. subst w'.
  unfold handleChargeSubscription_resume. run_ui.
  rewrite Hparse, Hok. simpl.
  split; [|split].
  - intros Herr. rewrite Herr. simpl.
    assert (Hnn : nullish data = false).
    { unfold member in Herr. destruct (nullish data); [discriminate|reflexivity]. }
    unfold member. rewrite Hnn. simpl.
    split; [reflexivity|].
    intros Hwallet. eexists. unfold render_error. simpl.
    split; [reflexivity|]. split; [reflexivity|]. simpl.
    unfold js_and. simpl. rewrite Hwallet.
    destruct (truthy (get_prop data "details")); simpl; auto 10.
  - intros data_error Herr Htruthy Hne. rewrite Herr. simpl.
    assert (Hnn : nullish data = false).
    { unfold member in Herr. destruct (nullish data); [discriminate|reflexivity]. }
    unfold member. rewrite Hnn. simpl.
    rewrite (strict_eq_str_false _ _ Hne), Htruthy. simpl.
    split; [reflexivity|]. split; [reflexivity|].
    eexists. unfold render_error. simpl. split; reflexivity.
  - intros props -> Hnone. unfold member. simpl. rewrite Hnone. reflexivity.
Qed.

(** After the first commit with a stored subscription: nothing is
    fetched yet, and the live state holds the parsed subscription, no
    status and no busy flag. *)
Lemma first_commit_restores (storage : gmap string json_text) (sub : jsval) :
  storage !! "bbq-subscription" = Some (Wellformed sub) ->
  let cmp := first_commit storage in
  log (world cmp) = []
  /\ subscription (state (world cmp)) = sub
  /\ subscriptionStatus (state (world cmp)) = JNull
  /\ loading (state (world cmp)) = ∅
  /\ checkStatus_dep cmp = JUndefined.
Proof.
  intros Hsub. unfold first_commit, loadStored. run_ui.
  destruct (storage !! "bbq-wallet") as [[v|raw]|]; simpl.
  - rewrite Hsub. simpl. repeat split; reflexivity.
  - destruct (raw =? ""); simpl.
    + rewrite Hsub. simpl. repeat split; reflexivity.
    + rewrite lookup_delete_ne by discriminate.
      rewrite Hsub. simpl. repeat split; reflexivity.
  - rewrite Hsub. simpl. repeat split; reflexivity.
Qed.

Lemma opt_member_defined_truthy (v : jsval) (k : string) :
  opt_member v k <> JUndefined -> truthy v = true.
Proof.
  intros H. destruct v; cbn in *; try congruence; reflexivity.
Qed.

(** A render whose [subscription?.id] is the value the effect last ran
    with runs no effect. *)
Lemma rerender_same_dep (cmp : Component) :
  checkStatus_dep cmp = opt_member (subscription (state (world cmp))) "id" ->
  rerender cmp = cmp.
Proof.
  intros Hdep. unfold rerender. cbv zeta.
  rewrite <- Hdep, Object_is_refl. reflexivity.
Qed.

(** A passive step neither replaces the subscription nor logs a request,
    once the effect has run for the current subscription id. *)
Lemma passive_step_quiet (cmp : Component) (ev : passive) :
  checkStatus_dep cmp = opt_member (subscription (state (world cmp))) "id" ->
  let cmp' := passive_step cmp ev in
  checkStatus_dep cmp' = opt_member (subscription (state (world cmp'))) "id"
  /\ log (world cmp') = log (world cmp).
Proof.
  intros Hdep. destruct ev as [|r]; simpl.
  - rewrite (rerender_same_dep cmp Hdep).
    split; [exact Hdep|reflexivity].
  - assert (Hkeep :
      subscription (state (fst (checkStatus_resume r (world cmp))))
      = subscription (state (world cmp))
      /\ log (fst (checkStatus_resume r (world cmp))) = log (world cmp)).
    { unfold checkStatus_resume. run_ui.
      destruct r as [status|e]; simpl; [split; reflexivity|].
      destruct (member e "message"); split; reflexivity. }
    destruct Hkeep as [Hs Hl].
    rewrite rerender_same_dep; simpl; rewrite Hs; [|exact Hdep].
    split; [exact Hdep|exact Hl].
Qed.

Lemma passive_steps_quiet (events : list passive) (cmp : Component) :
  checkStatus_dep cmp = opt_member (subscription (state (world cmp))) "id" ->
  log (world (fold_left passive_step events cmp)) = log (world cmp).
Proof.
  revert cmp. induction events as [|ev events IH]; intros cmp Hdep; simpl.
  - reflexivity.
  - destruct (passive_step_quiet cmp ev Hdep) as [Hdep' Hlog].
    rewrite (IH _ Hdep'). exact Hlog.
Qed.

(** C9. A subscription restored from localStorage, with an id: the
    first commit (where the status cell is empty and no busy flag is
    set) fetches nothing; the render of the restored state issues one
    status fetch for that id; and neither further renders nor the
    settling of that fetch issue another one. *)
Theorem restored_subscription_fetches_status_once
    (storage : gmap string json_text) (sub id : jsval)
    (events : list passive) :
  storage !! "bbq-subscription" = Some (Wellformed sub) ->
  opt_member sub "id" = id ->
  id <> JUndefined ->
  let fetch := GetStatus (JObj [("id", id); ("testnet", JBool true)]) in
  log (world (first_commit storage)) = []
  /\ log (world (mount storage)) = [fetch]
  /\ log (world (fold_left passive_step events (mount storage))) = [fetch].
Proof.
  intros Hsub Hid Hdef fetch.
  destruct (first_commit_restores storage sub Hsub)
    as (Hlog & Hs & Hst & Hload & Hdep).
  assert (Htruthy : truthy sub = true).
  { apply (opt_member_defined_truthy sub "id"). congruence. }
  assert (Hmount : log (world (mount storage)) = [fetch]
                   /\ checkStatus_dep (mount storage)
                      = opt_member
                          (subscription (state (world (mount storage)))) "id").
  { cbv zeta in Hlog, Hs, Hst, Hload, Hdep.
    unfold mount, rerender. cbv zeta.
    generalize dependent (first_commit storage). intros fc Hlog Hs Hst Hload Hdep.
    rewrite Hdep, Hs, Hid.
    rewrite (Object_is_undefined _ Hdef). simpl.
    unfold checkStatus_begin. rewrite Hs, Hst, Hload, Htruthy.
    unfold flag. rewrite lookup_empty. run_ui.
    rewrite Hlog, Hs. simpl. split; [|congruence].
    unfold fetch. rewrite <- Hid.
    destruct sub; simpl in *; try discriminate; reflexivity. }
  destruct Hmount as [Hfetch Hdep'].
  split; [exact Hlog|]. split; [exact Hfetch|].
  rewrite (passive_steps_quiet events _ Hdep'). exact Hfetch.
Qed.

End ControllerFacts.

(** ** The charge handler's failures, as the UI controller reads them *)

Section ChargeFailures.
Import Server.
Variable ToString : jsval -> string.
Variable env : gmap string string.
Variable charge : jsval -> completion jsval.

(** C10. A response of the charge handler that is not ok has status 400
    and a body whose only field is [error], or status 500 and a body
    whose only fields are [success] and [error]; either way the body has
    no [message] and no [details].  The same holds of the body the UI
    controller parses, so its Charge Subscription handler reads both as
    [undefined]: the banner it sets is an ErrorInfo whose title is the
    error field, whose details are absent and whose message is absent
    (type "gas") or falls back to the error field (type "error"), or the
    generic string. *)
Theorem charge_failure_body_has_error_only
    (request : json_text) (log : list call) (resp : Response) :
  snd (ChargeRoute.POST ToString env charge request log) = Normal resp ->
  SubscriptionManager.ok (status resp) = false ->
  exists props data,
    body resp = JObj props
    /\ (status resp = 400%Z /\ keys props = ["error"]
        \/ status resp = 500%Z /\ keys props = ["success"; "error"])
    /\ get_prop (body resp) "message" = JUndefined
    /\ get_prop (body resp) "details" = JUndefined
    /\ JSON_stringify (body resp) = Wellformed (JObj data)
    /\ keys data = keys props
    /\ member (JObj data) "message" = Normal JUndefined
    /\ member (JObj data) "details" = Normal JUndefined
    /\ forall c w,
        SubscriptionManager.error
          (SubscriptionManager.state
             (fst (SubscriptionManager.handleChargeSubscription_resume
                     ToString c
                     (SubscriptionManager.Responded
                        (status resp) (JSON_stringify (body resp)))
                     w)))
        = let data_error := get_prop (JObj data) "error" in
          if strict_eq_str data_error "Insufficient Gas" then
            JObj [("title", data_error); ("message", JUndefined);
                  ("details", JUndefined); ("type", JStr "gas")]
          else if truthy data_error then
            JObj [("title", data_error); ("message", data_error);
                  ("details", JUndefined); ("type", JStr "error")]
          else JStr "Failed to charge subscription".
Proof.
  intros Hout Hok.
  destruct (charge_POST_outcomes ToString env charge request log)
    as [H|[[rest H]|[[m H]|[[thrown H] _]]]];
    cbv zeta in H; rewrite H in Hout; [| | |discriminate];
    injection Hout as <-; simpl in *; [|discriminate|].
  - eexists _, _. split; [reflexivity|]. split; [left; split; reflexivity|].
    repeat split; reflexivity.
  - pose proof (js_or_truthy m (JStr "Failed to charge subscription") eq_refl)
      as Htruthy.
    destruct (js_or m (JStr "Failed to charge subscription")) as [ | |b|n|s|xs|ps];
      try discriminate Htruthy;
      [ | destruct n as [sg|sg| |sg mant ex]; try discriminate Htruthy | | | ];
      (eexists _, _; split; [reflexivity|]; split; [right; split; reflexivity|];
       repeat split; try reflexivity;
       intros c w;
       rewrite charge_failure_banner_of by (exact Hok || reflexivity);
       reflexivity).
Qed.

End ChargeFailures.


(** ** The properties at sample inputs *)

(** C1 at an empty subscriptionId, and at an id without amount. *)
Lemma charge_POST_validates_and_defaults_witness :
  ChargeRoute.POST Sample.to_string Sample.env Sample.charge_ok
    (Wellformed (JObj [("subscriptionId", JStr "")])) []
  = ([], Normal {| Server.status := 400;
                   Server.body := JObj [("error", JStr "Missing subscriptionId")] |})
  /\ exists options,
      fst (ChargeRoute.POST Sample.to_string Sample.env Sample.charge_ok
             (Wellformed (JObj [("subscriptionId", JStr "0xsub")])) [])
      = [] ++ [Server.Charge options]
      /\ get_prop options "id" = JStr "0xsub"
      /\ get_prop options "amount" = JStr "1.00".
Proof.
  split.
  - apply (proj1 (charge_POST_validates_and_defaults
                    Sample.to_string Sample.env Sample.charge_ok
                    (Wellformed (JObj [("subscriptionId", JStr "")]))
                    (JObj [("subscriptionId", JStr "")]) (JStr "") []
                    eq_refl eq_refl)).
    right. reflexivity.
  - apply (proj2 (charge_POST_validates_and_defaults
                    Sample.to_string Sample.env Sample.charge_ok
                    (Wellformed (JObj [("subscriptionId", JStr "0xsub")]))
                    (JObj [("subscriptionId", JStr "0xsub")]) (JStr "0xsub") []
                    eq_refl eq_refl)); reflexivity.
Defined.





(** C6 on a first visit. *)
Lemma createSubscription_without_wallet_witness :
  let w' :=
    fst (SubscriptionManager.handleCreateSubscription_begin
           SubscriptionManager.initial_state Sample.fresh) in
  SubscriptionManager.log w' = []
  /\ SubscriptionManager.subscription (SubscriptionManager.state w') = JNull
  /\ SubscriptionManager.localStorage w' = ∅
  /\ SubscriptionManager.error (SubscriptionManager.state w')
     = JStr "Please create a wallet first".
Proof.
  exact (createSubscription_without_wallet
           SubscriptionManager.initial_state Sample.fresh eq_refl).
Defined.

(** C3 as the specification states it does not hold.  Run from a render
    in which a wallet is present, [handleCreateWallet] still logs the
    provisioning request: the operation has no guard of its own.  Nor does
    the button cover a call in flight.  In a browser with a subscription
    and no wallet: Revoke is clicked, then Create Wallet (the request goes
    out and the busy flag is set); the revoke settles and writes the
    loading map of the render it started in, without the wallet flag; the
    button is enabled again while the provisioning call is pending, and a
    second click sends a second request. *)
Lemma createWallet_handler_has_no_guard :
  ~ (forall (c : SubscriptionManager.State) (w : SubscriptionManager.World),
        SubscriptionManager.flag (SubscriptionManager.loading c) "wallet" = true
        \/ truthy (SubscriptionManager.wallet c) = true ->
        fst (SubscriptionManager.handleCreateWallet_begin c w) = w)
  /\ (let w0 := MoreSamples.subscription_only in
      let w1 :=
        fst (SubscriptionManager.click
               SubscriptionManager.revokeSubscription_disabled
               SubscriptionManager.handleRevokeSubscription_begin w0) in
      let w2 :=
        fst (SubscriptionManager.click
               SubscriptionManager.createWallet_disabled
               SubscriptionManager.handleCreateWallet_begin w1) in
      let w3 :=
        fst (SubscriptionManager.handleRevokeSubscription_resume
               Sample.to_string (SubscriptionManager.state w0)
               MoreSamples.revoke_answer w2) in
      let w4 :=
        fst (SubscriptionManager.click
               SubscriptionManager.createWallet_disabled
               SubscriptionManager.handleCreateWallet_begin w3) in
      SubscriptionManager.log w2
      = [SubscriptionManager.Fetch "/API/revoke-subscription" "POST"
           SubscriptionManager.json_headers
           (Some (Wellformed (JObj [("subscriptionId", JStr "0xsub")])));
         SubscriptionManager.Fetch "/API/create-wallet" "POST" [] None]
      /\ SubscriptionManager.createWallet_disabled
           (SubscriptionManager.state w2) = true
      /\ SubscriptionManager.wallet (SubscriptionManager.state w3) = JNull
      /\ SubscriptionManager.flag
           (SubscriptionManager.loading (SubscriptionManager.state w3))
           "wallet" = false
      /\ SubscriptionManager.createWallet_disabled
           (SubscriptionManager.state w3) = false
      /\ SubscriptionManager.log w4
         = SubscriptionManager.log w3
           ++ [SubscriptionManager.Fetch "/API/create-wallet" "POST" [] None]).
Proof.
  split.
  - intros Hclaim.
    pose proof (Hclaim (SubscriptionManager.state Sample.subscribed)
                  Sample.subscribed (or_intror eq_refl)) as H.
    apply (f_equal SubscriptionManager.log) in H.
    discriminate H.
  - vm_compute. repeat split.
Qed.

(** C3 in a browser that has a wallet. *)
Lemma createWallet_guarded_by_button_only_witness :
  SubscriptionManager.createWallet_disabled
    (SubscriptionManager.state Sample.subscribed) = true
  /\ SubscriptionManager.click SubscriptionManager.createWallet_disabled
       SubscriptionManager.handleCreateWallet_begin Sample.subscribed
     = (Sample.subscribed, Normal tt)
  /\ forall c,
      SubscriptionManager.log
        (fst (SubscriptionManager.handleCreateWallet_begin c Sample.subscribed))
      = [] ++ [SubscriptionManager.Fetch "/API/create-wallet" "POST" [] None].
Proof.
  destruct (createWallet_guarded_by_button_only Sample.subscribed
              (or_intror eq_refl)) as (Hdisabled & Hclick & Hfetch & _).
  exact (conj Hdisabled (conj Hclick Hfetch)).
Defined.

(** C2 on an "Insufficient Gas" answer, in a browser that has a wallet. *)
Lemma charge_failure_banner_witness :
  let w' :=
    fst (SubscriptionManager.handleChargeSubscription_resume Sample.to_string
           (SubscriptionManager.state Sample.subscribed)
           (SubscriptionManager.Responded 500
              (Wellformed (JObj [("success", JBool false);
                                 ("error", JStr "Insufficient Gas")])))
           Sample.subscribed) in
  get_prop (SubscriptionManager.error (SubscriptionManager.state w')) "type"
  = JStr "gas"
  /\ exists alert,
      SubscriptionManager.render_error (SubscriptionManager.state w') = Some alert
      /\ SubscriptionManager.yellow alert = true
      /\ In (JStr "0xowner") (SubscriptionManager.texts alert).
Proof.
  destruct (proj1 (charge_failure_banner Sample.to_string
                     (SubscriptionManager.state Sample.subscribed)
                     Sample.subscribed 500
                     (Wellformed (JObj [("success", JBool false);
                                        ("error", JStr "Insufficient Gas")]))
                     _ eq_refl eq_refl) eq_refl)
    as [Htype Halert].
  split; [exact Htype|exact (Halert eq_refl)].
Defined.

(** C5 in a browser that has a wallet and a subscription. *)
Lemma revoke_keeps_subscription_and_charge_allowed_witness :
  let c := SubscriptionManager.state Sample.subscribed in
  let w1 := fst (SubscriptionManager.handleRevokeSubscription_begin c
                   Sample.subscribed) in
  let w2 :=
    fst (SubscriptionManager.handleRevokeSubscription_resume Sample.to_string c
           (SubscriptionManager.Responded 200
              (Wellformed (JObj [("success", JBool true);
                                 ("subscriptionId", JStr "0xsub")])))
           w1) in
  SubscriptionManager.subscription (SubscriptionManager.state w2)
  = Sample.subscription_info
  /\ SubscriptionManager.localStorage w2
     = SubscriptionManager.localStorage Sample.subscribed
  /\ exists body,
      SubscriptionManager.log
        (fst (SubscriptionManager.handleChargeSubscription_begin
                (SubscriptionManager.state w2) w2))
      = SubscriptionManager.log w2
        ++ [SubscriptionManager.Fetch "/API/charge-subscription" "POST"
              SubscriptionManager.json_headers (Some body)].
Proof.
  destruct (revoke_keeps_subscription_and_charge_allowed Sample.to_string
              Sample.subscribed 200
              (Wellformed (JObj [("success", JBool true);
                                 ("subscriptionId", JStr "0xsub")]))
              _ eq_refl eq_refl eq_refl)
    as (Hsub & _ & Hstore & _ & Hcharge).
  split; [exact Hsub|]. split; [exact Hstore|].
  eexists. exact (Hcharge eq_refl).
Defined.

(** C9 for the stored sample subscription, followed by a render, the
    arrival of the status and another render. *)
Lemma restored_subscription_fetches_status_once_witness :
  let storage := SubscriptionManager.localStorage Sample.subscribed in
  let fetch :=
    SubscriptionManager.GetStatus
      (JObj [("id", JStr "0xsub"); ("testnet", JBool true)]) in
  SubscriptionManager.log
    (SubscriptionManager.world (SubscriptionManager.first_commit storage)) = []
  /\ SubscriptionManager.log
       (SubscriptionManager.world (SubscriptionManager.mount storage)) = [fetch]
  /\ SubscriptionManager.log
       (SubscriptionManager.world
          (fold_left SubscriptionManager.passive_step
             [SubscriptionManager.Render;
              SubscriptionManager.StatusSettled
                (Normal (JObj [("isSubscribed", JBool true)]));
              SubscriptionManager.Render]
             (SubscriptionManager.mount storage)))
     = [fetch].
Proof.
  apply (restored_subscription_fetches_status_once
           (SubscriptionManager.localStorage Sample.subscribed)
           Sample.subscription_info (JStr "0xsub")).
  - vm_compute. reflexivity.
  - reflexivity.
  - discriminate.
Defined.

(** C10 on the answer to a request without subscriptionId. *)
Lemma charge_failure_body_has_error_only_witness :
  exists props data,
    keys props = ["error"]
    /\ JSON_stringify (JObj props) = Wellformed (JObj data)
    /\ keys data = ["error"]
    /\ member (JObj data) "message" = Normal JUndefined
    /\ member (JObj data) "details" = Normal JUndefined.
Proof.
  destruct (charge_failure_body_has_error_only
              Sample.to_string Sample.env Sample.charge_ok
              (Wellformed (JObj [])) []
              {| Server.status := 400;
                 Server.body := JObj [("error", JStr "Missing subscriptionId")] |}
              eq_refl eq_refl)
    as (props & data & Hbody & Hkeys & _ & _ & Hwire & Hsame & Hm & Hd & _).
  exists props, data.
  simpl in Hbody. injection Hbody as <-.
  repeat split; assumption.
Defined.

(** ** The handlers run on sample requests *)

(** The literal 30 of [periodInDays] as a double. *)
Example number_30 :
  SubscriptionManager.number 30 = JNum (S754_finite false 8444249301319680 (-48)).
Proof. reflexivity. Qed.

(** A full charge: amount and recipient given. *)
Example charge_POST_with_recipient :
  ChargeRoute.POST Sample.to_string Sample.env Sample.charge_ok
    (Wellformed (JObj [("subscriptionId", JStr "0xsub");
                       ("amount", JStr "2.50");
                       ("recipient", JStr "0xshop")])) []
  = ([Server.Charge
        (JObj [("id", JStr "0xsub"); ("amount", JStr "2.50");
               ("testnet", JBool true); ("walletName", JStr "bbq-sub-v1");
               ("cdpApiKeyId", JStr "key-id");
               ("cdpApiKeySecret", JStr "key-secret");
               ("cdpWalletSecret", JStr "wallet-secret");
               ("recipient", JStr "0xshop")])],
     Normal {| Server.status := 200;
               Server.body :=
                 JObj [("success", JBool true);
                       ("transactionHash", JStr "0xtx");
                       ("amount", JStr "2.50");
                       ("subscriptionOwner", JStr "0xowner");
                       ("message", JStr "Successfully charged $2.50 USDC");
                       ("subscriptionId", JStr "0xsub")] |}).
Proof. vm_compute. reflexivity. Qed.

(** A body that is the JSON text [null], and a body that is not JSON:
    both end in the [catch] block, with status 500 and no platform call. *)
Example charge_POST_null_body :
  ChargeRoute.POST Sample.to_string Sample.env Sample.charge_ok
    (Wellformed JNull) []
  = ([], Normal {| Server.status := 500;
                   Server.body :=
                     JObj [("success", JBool false);
                           ("error",
                             get_prop (TypeError_destructure "subscriptionId" JNull)
                               "message")] |}).
Proof. reflexivity. Qed.

Example charge_POST_not_json :
  ChargeRoute.POST Sample.to_string Sample.env Sample.charge_ok
    (Malformed "subscriptionId=1") []
  = ([], Normal {| Server.status := 500;
                   Server.body :=
                     JObj [("success", JBool false);
                           ("error", JStr "Unexpected token in JSON")] |}).
Proof. reflexivity. Qed.

(** A stored record that parses but has no id is restored, and no status
    fetch follows: the dependency [subscription?.id] never changes. *)
Example restored_without_id_no_fetch :
  let cmp := SubscriptionManager.mount {[ "bbq-subscription" := Wellformed (JObj []) ]} in
  SubscriptionManager.subscription
    (SubscriptionManager.state (SubscriptionManager.world cmp)) = JObj []
  /\ SubscriptionManager.log (SubscriptionManager.world cmp) = [].
Proof. vm_compute. split; reflexivity. Qed.

(** * Further properties of the routes *)

Section RouteCalls.
Import Server.
Variable ToString : jsval -> string.
Variable env : gmap string string.
Variable charge revoke getOrCreateSubscriptionOwnerWallet
  : jsval -> completion jsval.

(** The calls the charge handler leaves in the log, for any request. *)
Lemma charge_POST_log (request : json_text) (log : list call) :
  fst (ChargeRoute.POST ToString env charge request log)
  = match JSON_parse request with
    | Normal json =>
        if negb (nullish json) && truthy (get_prop json "subscriptionId") then
          log ++ [Charge
                    (JObj ([("id", get_prop json "subscriptionId");
                            ("amount", js_or (get_prop json "amount") (JStr "1.00"));
                            ("testnet", JBool true);
                            ("walletName", JStr ChargeRoute.WALLET_NAME);
                            ("cdpApiKeyId", process_env env "CDP_API_KEY_ID");
                            ("cdpApiKeySecret", process_env env "CDP_API_KEY_SECRET");
                            ("cdpWalletSecret", process_env env "CDP_WALLET_SECRET")]
                           ++ spread_if (get_prop json "recipient")
                                [("recipient", get_prop json "recipient")]))]
        else log
    | Throw _ => log
    end.
Proof.
  unfold ChargeRoute.POST. run.
  unfold ChargeRoute.base_subscription_charge, destructure, spread_if.
  destruct request as [json|raw]; simpl; [|reflexivity].
  destruct (nullish json); simpl; [reflexivity|].
  destruct (truthy (get_prop json "subscriptionId")); simpl; [|reflexivity].
  destruct (truthy (get_prop json "recipient")); simpl;
    (destruct (charge _) as [res|e]; simpl;
     [ unfold member; destruct (nullish res); simpl; reflexivity
     | destruct (member e "message"); reflexivity ]).
Qed.

Lemma revoke_POST_log (request : json_text) (log : list call) :
  fst (RevokeRoute.POST env revoke request log)
  = match JSON_parse request with
    | Normal json =>
        if negb (nullish json) && truthy (get_prop json "subscriptionId") then
          log ++ [Revoke
                    (JObj [("id", get_prop json "subscriptionId");
                           ("testnet", JBool true);
                           ("walletName", JStr RevokeRoute.WALLET_NAME);
                           ("cdpApiKeyId", process_env env "CDP_API_KEY_ID");
                           ("cdpApiKeySecret", process_env env "CDP_API_KEY_SECRET");
                           ("cdpWalletSecret", process_env env "CDP_WALLET_SECRET")])]
        else log
    | Throw _ => log
    end.
Proof.
  unfold RevokeRoute.POST. run.
  unfold RevokeRoute.base_subscription_revoke, destructure.
  destruct request as [json|raw]; simpl; [|reflexivity].
  destruct (nullish json); simpl; [reflexivity|].
  destruct (truthy (get_prop json "subscriptionId")); simpl; [|reflexivity].
  destruct (revoke _) as [res|e]; simpl; [reflexivity|].
  destruct (member e "message"); reflexivity.
Qed.

Lemma createWallet_POST_log (log : list jsval) :
  fst (CreateWalletRoute.POST env getOrCreateSubscriptionOwnerWallet log)
  = log ++ [JObj [("cdpApiKeyId", process_env env "CDP_API_KEY_ID");
                  ("cdpApiKeySecret", process_env env "CDP_API_KEY_SECRET");
                  ("cdpWalletSecret", process_env env "CDP_WALLET_SECRET");
                  ("walletName", JStr CreateWalletRoute.WALLET_NAME)]].
Proof.
  unfold CreateWalletRoute.POST. run.
  unfold CreateWalletRoute.base_subscription_getOrCreateSubscriptionOwnerWallet.
  destruct (getOrCreateSubscriptionOwnerWallet _) as [owner|e]; simpl.
  - unfold member. destruct (nullish owner); simpl; reflexivity.
  - destruct (member e "message"); reflexivity.
Qed.

(** X1. The charge handler calls the platform at most once per request,
    and it does so exactly when the body parses to a value other than
    [null] whose subscriptionId is truthy: not only a missing or empty
    id, but also [0], [false] and [null] as id stop the request before
    the platform. *)
Theorem charge_POST_calls_platform_iff (request : json_text) (log : list call) :
  (fst (ChargeRoute.POST ToString env charge request log) = log
   \/ exists options,
       fst (ChargeRoute.POST ToString env charge request log)
       = log ++ [Charge options])
  /\ ((exists options,
         fst (ChargeRoute.POST ToString env charge request log)
         = log ++ [Charge options])
      <-> exists json,
            JSON_parse request = Normal json
            /\ nullish json = false
            /\ truthy (get_prop json "subscriptionId") = true).
Proof.
  rewrite charge_POST_log.
  destruct (JSON_parse request) as [json|e] eqn:Hparse.
  - destruct (nullish json) eqn:Hn; simpl.
    + split; [left; reflexivity|]. split.
      * intros [o H]. symmetry in H. apply log_grows_not_same in H. contradiction.
      * intros (j & [= <-] & Hj & _). congruence.
    + destruct (truthy (get_prop json "subscriptionId")) eqn:Ht.
      * split; [right; eauto|]. split; [intros _; eauto|intros _; eauto].
      * split; [left; reflexivity|]. split.
        -- intros [o H]. symmetry in H. apply log_grows_not_same in H.
           contradiction.
        -- intros (j & [= <-] & _ & Hj). congruence.
  - split; [left; reflexivity|]. split.
    + intros [o H]. symmetry in H. apply log_grows_not_same in H. contradiction.
    + intros (j & Hj & _). discriminate.
Qed.

(** X2. Whatever request reaches the platform, the options of the charge
    call carry the request's subscriptionId, the request's amount when it
    is truthy and "1.00" otherwise (so also for an amount of [0] or ""),
    the recipient exactly when the request has a truthy one, the testnet
    flag, and the three credentials as the environment has them. *)
Theorem charge_POST_options
    (request : json_text) (json : jsval) (log : list call) (options : jsval) :
  JSON_parse request = Normal json ->
  fst (ChargeRoute.POST ToString env charge request log)
  = log ++ [Charge options] ->
  get_prop options "id" = get_prop json "subscriptionId"
  /\ get_prop options "amount"
     = (if truthy (get_prop json "amount")
        then get_prop json "amount" else JStr "1.00")
  /\ get_prop options "recipient"
     = (if truthy (get_prop json "recipient")
        then get_prop json "recipient" else JUndefined)
  /\ get_prop options "testnet" = JBool true
  /\ get_prop options "cdpApiKeyId" = process_env env "CDP_API_KEY_ID"
  /\ get_prop options "cdpApiKeySecret" = process_env env "CDP_API_KEY_SECRET"
  /\ get_prop options "cdpWalletSecret" = process_env env "CDP_WALLET_SECRET".
Proof.
  intros Hparse. rewrite charge_POST_log, Hparse.
  destruct (negb (nullish json) && truthy (get_prop json "subscriptionId")).
  - intros H. apply log_last_inj in H. injection H as <-.
    unfold spread_if, js_or.
    destruct (truthy (get_prop json "recipient")); simpl;
      repeat split; reflexivity.
  - intros H. symmetry in H. apply log_grows_not_same in H. contradiction.
Qed.


(** X4. The revoke handler calls the platform at most once, exactly when
    the body parses to a value other than [null] with a truthy
    subscriptionId; the call carries that id, the testnet flag, the
    wallet name and the three credentials of the environment, and nothing
    else of the request. *)
Theorem revoke_POST_calls_platform_iff (request : json_text) (log : list call) :
  (fst (RevokeRoute.POST env revoke request log) = log
   \/ exists json,
       JSON_parse request = Normal json
       /\ fst (RevokeRoute.POST env revoke request log)
          = log ++ [Revoke
                      (JObj [("id", get_prop json "subscriptionId");
                             ("testnet", JBool true);
                             ("walletName", JStr "bbq-sub-v1");
                             ("cdpApiKeyId", process_env env "CDP_API_KEY_ID");
                             ("cdpApiKeySecret",
                               process_env env "CDP_API_KEY_SECRET");
                             ("cdpWalletSecret",
                               process_env env "CDP_WALLET_SECRET")])])
  /\ ((exists options,
         fst (RevokeRoute.POST env revoke request log) = log ++ [Revoke options])
      <-> exists json,
            JSON_parse request = Normal json
            /\ nullish json = false
            /\ truthy (get_prop json "subscriptionId") = true).
Proof.
  rewrite revoke_POST_log.
  destruct (JSON_parse request) as [json|e] eqn:Hparse.
  - destruct (nullish json) eqn:Hn; simpl.
    + split; [left; reflexivity|]. split.
      * intros [o H]. symmetry in H. apply log_grows_not_same in H. contradiction.
      * intros (j & [= <-] & Hj & _). congruence.
    + destruct (truthy (get_prop json "subscriptionId")) eqn:Ht.
      * split; [right; eauto|]. split; [intros _; eauto|intros _; eauto].
      * split; [left; reflexivity|]. split.
        -- intros [o H]. symmetry in H. apply log_grows_not_same in H.
           contradiction.
        -- intros (j & [= <-] & _ & Hj). congruence.
  - split; [left; reflexivity|]. split.
    + intros [o H]. symmetry in H. apply log_grows_not_same in H. contradiction.
    + intros (j & Hj & _). discriminate.
Qed.

(** What the provisioning handler answers. *)
Lemma createWallet_POST_answer (log : list jsval) :
  snd (CreateWalletRoute.POST env getOrCreateSubscriptionOwnerWallet log)
  = match getOrCreateSubscriptionOwnerWallet
            (JObj [("cdpApiKeyId", process_env env "CDP_API_KEY_ID");
                   ("cdpApiKeySecret", process_env env "CDP_API_KEY_SECRET");
                   ("cdpWalletSecret", process_env env "CDP_WALLET_SECRET");
                   ("walletName", JStr CreateWalletRoute.WALLET_NAME)]) with
    | Normal owner =>
        if nullish owner then
          Normal {| status := 500;
                    body := JObj [("error",
                                    get_prop (TypeError_read "address" owner)
                                      "message")] |}
        else
          Normal {| status := 200;
                    body :=
                      JObj [("address", get_prop owner "address");
                            ("walletName", get_prop owner "walletName");
                            ("message",
                              JStr "CDP smart wallet ready for subscription management")] |}
    | Throw e =>
        match member e "message" with
        | Normal message =>
            Normal {| status := 500;
                      body := JObj [("error",
                                      js_or message
                                        (JStr "Failed to create/retrieve wallet"))] |}
        | Throw e' => Throw e'
        end
    end.
Proof.
  unfold CreateWalletRoute.POST. run.
  unfold CreateWalletRoute.base_subscription_getOrCreateSubscriptionOwnerWallet.
  destruct (getOrCreateSubscriptionOwnerWallet _) as [owner|e]; simpl.
  - unfold member. destruct (nullish owner) eqn:Hn; simpl; [|reflexivity].
    destruct owner; try discriminate Hn; reflexivity.
  - destruct (member e "message"); reflexivity.
Qed.

(** X5. The three handlers name the same server wallet and present the
    same credentials: whatever the requests, the options of a charge call
    and of a revoke call agree with those of the provisioning call on
    walletName and on the three credential fields. *)
Theorem handlers_use_one_wallet
    (charge_request revoke_request : json_text)
    (charge_log revoke_log : list call) (wallet_log : list jsval)
    (charge_options revoke_options wallet_options : jsval) (field : string) :
  In field ["walletName"; "cdpApiKeyId"; "cdpApiKeySecret"; "cdpWalletSecret"] ->
  fst (ChargeRoute.POST ToString env charge charge_request charge_log)
  = charge_log ++ [Charge charge_options] ->
  fst (RevokeRoute.POST env revoke revoke_request revoke_log)
  = revoke_log ++ [Revoke revoke_options] ->
  fst (CreateWalletRoute.POST env getOrCreateSubscriptionOwnerWallet wallet_log)
  = wallet_log ++ [wallet_options] ->
  get_prop charge_options field = get_prop wallet_options field
  /\ get_prop revoke_options field = get_prop wallet_options field.
Proof.
  intros Hfield.
  rewrite charge_POST_log, revoke_POST_log, createWallet_POST_log.
  destruct (JSON_parse charge_request) as [cj|ce];
    [|intros H; symmetry in H; apply log_grows_not_same in H; contradiction].
  destruct (negb (nullish cj) && truthy (get_prop cj "subscriptionId"));
    [|intros H; symmetry in H; apply log_grows_not_same in H; contradiction].
  intros Hc. apply log_last_inj in Hc. injection Hc as <-.
  destruct (JSON_parse revoke_request) as [rj|re];
    [|intros H; symmetry in H; apply log_grows_not_same in H; contradiction].
  destruct (negb (nullish rj) && truthy (get_prop rj "subscriptionId"));
    [|intros H; symmetry in H; apply log_grows_not_same in H; contradiction].
  intros Hr. apply log_last_inj in Hr. injection Hr as <-.
  intros Hw. apply log_last_inj in Hw. subst wallet_options.
  unfold spread_if.
  simpl in Hfield.
  destruct Hfield as [<-|[<-|[<-|[<-|[]]]]];
    destruct (truthy (get_prop cj "recipient")); split; reflexivity.
Qed.

End RouteCalls.


(** * Further properties of the UI controller *)

Section ControllerMore.
Import SubscriptionManager.
Variable ToString : jsval -> string.

(** The case analyses below do not look into serialised values. *)
Local Opaque JSON_stringify new_Error js_or.

(** X6. Every handler clears its own busy flag when it ends, whatever
    the awaited result: a response, a rejection, a body that is not JSON,
    even a rejection with [null], on which the [catch] block itself
    throws. *)
Theorem busy_flag_always_cleared (c : State) (w : World) :
  (forall r, flag (loading (state (fst (handleCreateWallet_resume ToString c r w))))
               "wallet" = false)
  /\ (forall r, flag (loading (state (fst (handleCreateSubscription_resume c r w))))
                  "subscription" = false)
  /\ (forall r, flag (loading (state (fst (handleGetStatus_resume c r w))))
                  "status" = false)
  /\ (forall r, flag (loading (state (fst (handleChargeSubscription_resume
                                             ToString c r w))))
                  "charge" = false)
  /\ (forall r, flag (loading (state (fst (handleRevokeSubscription_resume
                                             ToString c r w))))
                  "revoke" = false)
  /\ (forall r, flag (loading (state (fst (checkStatus_resume r w))))
                  "status" = false).
Proof.
  repeat split; intros r;
    unfold handleCreateWallet_resume, handleCreateSubscription_resume,
      handleGetStatus_resume, handleChargeSubscription_resume,
      handleRevokeSubscription_resume, checkStatus_resume, member;
    run_ui; crunch; unfold flag; rewrite lookup_insert_eq; reflexivity.
Qed.

(** What a revoke leaves behind, whatever the response. *)
Lemma revoke_resume_frame (c : State) (r : fetch_result) (w : World) :
  let w' := fst (handleRevokeSubscription_resume ToString c r w) in
  wallet (state w') = wallet (state w)
  /\ subscription (state w') = subscription (state w)
  /\ subscriptionStatus (state w') = subscriptionStatus (state w)
  /\ localStorage w' = localStorage w
  /\ loading (state w') = <["revoke" := false]> (loading c).
Proof.
  unfold handleRevokeSubscription_resume, member. run_ui. crunch;
    repeat split; reflexivity.
Qed.

(** X7. The handlers write the busy flags from the map of the render they
    were created in.  So when a charge is started while a revoke is in
    flight, the settling of the revoke, whatever its result, drops the
    charge's flag: the Charge button, disabled while the charge request
    was the last thing sent, is enabled again although that request has
    not settled.  The status effect, which updates the live map, leaves
    the flags of the other operations alone. *)
Theorem settling_revoke_drops_charge_flag (w : World) (r : fetch_result) :
  truthy (wallet (state w)) = true ->
  truthy (subscription (state w)) = true ->
  flag (loading (state w)) "charge" = false ->
  let c := state w in
  let w1 := fst (handleRevokeSubscription_begin c w) in
  let w2 := fst (handleChargeSubscription_begin (state w1) w1) in
  let w3 := fst (handleRevokeSubscription_resume ToString c r w2) in
  (exists body,
      log w2 = log w
               ++ [Fetch "/API/revoke-subscription" "POST" json_headers
                     (Some (JSON_stringify
                              (JObj [("subscriptionId",
                                       get_prop (subscription c) "id")])));
                   Fetch "/API/charge-subscription" "POST" json_headers
                     (Some body)])
  /\ chargeSubscription_disabled (state w2) = true
  /\ chargeSubscription_disabled (state w3) = false
  /\ forall (name : string) (s : completion jsval),
      name <> "status" ->
      flag (loading (state (fst (checkStatus_resume s w2)))) name
      = flag (loading (state w2)) name.
Proof.
  intros Hwallet Hsub Hcharge c w1 w2 w3.
  assert (Hw2 : w2 = fst (handleChargeSubscription_begin (state w1) w1))
    by reflexivity.
  assert (Hw1 : state w1
                = {| wallet := wallet c; subscription := subscription c;
                     subscriptionStatus := subscriptionStatus c;
                     loading := <["revoke" := true]> (loading c);
                     error := JNull; success := JNull;
                     showBackendPanel := showBackendPanel c;
                     subscriptionAmount := subscriptionAmount c;
                     isEditingAmount := isEditingAmount c;
                     chargeAmount := chargeAmount c;
                     recipientAddress := recipientAddress c |}
                /\ log w1 = log w ++ [Fetch "/API/revoke-subscription" "POST"
                                        json_headers
                                        (Some (JSON_stringify
                                                 (JObj [("subscriptionId",
                                                          get_prop (subscription c) "id")])))]).
  { subst w1 c. unfold handleRevokeSubscription_begin. rewrite Hsub.
    split; reflexivity. }
  destruct Hw1 as [Hs1 Hl1].
  assert (Hs2 : loading (state w2)
                = <["charge" := true]> (<["revoke" := true]> (loading c))
                /\ wallet (state w2) = wallet c
                /\ subscription (state w2) = subscription c
                /\ exists body,
                    log w2 = log w1 ++ [Fetch "/API/charge-subscription" "POST"
                                         json_headers (Some body)]).
  { rewrite Hw2. unfold handleChargeSubscription_begin.
    rewrite Hs1. cbn [wallet subscription]. fold c in Hwallet, Hsub.
    rewrite Hwallet, Hsub. simpl. rewrite Hs1. simpl.
    repeat split. eexists. reflexivity. }
  destruct Hs2 as (Hload2 & Hwal2 & Hsub2 & body & Hl2).
  destruct (revoke_resume_frame c r w2) as (Hwal3 & Hsub3 & _ & _ & Hload3).
  fold w3 in Hwal3, Hsub3, Hload3.
  split; [exists body; rewrite Hl2, Hl1, <- app_assoc; reflexivity|].
  split.
  { unfold chargeSubscription_disabled, flag. rewrite Hload2, lookup_insert_eq.
    reflexivity. }
  split.
  { unfold chargeSubscription_disabled. rewrite Hwal3, Hsub3, Hwal2, Hsub2.
    fold c in Hwallet, Hsub. rewrite Hwallet, Hsub.
    unfold flag. rewrite Hload3, lookup_insert_ne by discriminate.
    unfold flag in Hcharge. fold c in Hcharge. rewrite Hcharge. reflexivity. }
  intros name s Hname. unfold checkStatus_resume, member. run_ui.
  crunch; unfold flag; rewrite lookup_insert_ne by congruence; reflexivity.
Qed.

(** X8. Each cell of the state has its writers, whatever the closure and
    the awaited result of a step: the wallet is written only by the
    storage effect and by the end of Create Wallet, the subscription only
    by the storage effect and by the end of Create Subscription, the
    status only by the end of a status fetch, localStorage only by those
    wallet and subscription writers; no step writes the three input
    fields.  In particular charging and revoking never touch wallet,
    subscription, status or storage. *)
Theorem each_cell_has_its_writers (a : App.action) (w : World) :
  let w' := fst (App.perform ToString a w) in
  match a with
  | App.LoadStored | App.CreateWalletResume _ _ => True
  | _ => wallet (state w') = wallet (state w)
  end
  /\ match a with
     | App.LoadStored | App.CreateSubscriptionResume _ _ => True
     | _ => subscription (state w') = subscription (state w)
     end
  /\ match a with
     | App.GetStatusResume _ _ | App.CheckStatusResume _ => True
     | _ => subscriptionStatus (state w') = subscriptionStatus (state w)
     end
  /\ match a with
     | App.LoadStored | App.CreateWalletResume _ _
     | App.CreateSubscriptionResume _ _ => True
     | _ => localStorage w' = localStorage w
     end
  /\ subscriptionAmount (state w') = subscriptionAmount (state w)
  /\ chargeAmount (state w') = chargeAmount (state w)
  /\ recipientAddress (state w') = recipientAddress (state w).
Proof.
  destruct a; run_action; crunch; repeat split; reflexivity.
Qed.

(** One step: what it may log, and what it does to the subscription and
    to localStorage. *)
Lemma step_effects (a : App.action) (w : World) :
  let w' := fst (App.perform ToString a w) in
  (exists new,
      log w' = log w ++ new
      /\ forallb App.expected_io new = true
      /\ length new <= 1)
  /\ (a <> App.LoadStored ->
      truthy (subscription (state w)) = true ->
      truthy (subscription (state w')) = true)
  /\ (forall key,
        key <> "bbq-wallet" -> key <> "bbq-subscription" ->
        localStorage w' !! key = localStorage w !! key)
  /\ (is_Some (localStorage w !! "bbq-subscription") ->
      is_Some (localStorage w' !! "bbq-subscription")).
Proof.
  intros w'. subst w'.
  remember (fst (App.perform ToString a w)) as w' eqn:Hw'. revert Hw'.
  destruct a; run_action; crunch; intros ->; simpl;
    (split; [first [ exists []; rewrite app_nil_r; repeat split; simpl; lia
                   | eexists [_]; repeat split; simpl; lia ]|]);
    (split; [intros Hne Hsub; first [congruence | exact Hsub | reflexivity]|]);
    (split;
     [ intros key Hw Hs;
       rewrite ?lookup_insert_ne, ?lookup_delete_ne by congruence; reflexivity
     | intros Hsome;
       rewrite ?lookup_insert_eq, ?lookup_insert_ne, ?lookup_delete_ne
         by discriminate;
       first [ exact Hsome | solve [eauto]
             | destruct Hsome as [? Hnone]; discriminate Hnone ] ]).
Qed.

Lemma perform_all_cons (a : App.action) (steps : list App.action) (w : World) :
  App.perform_all ToString (a :: steps) w
  = App.perform_all ToString steps (fst (App.perform ToString a w)).
Proof. reflexivity. Qed.

(** X9. No step of the controller other than the storage effect (which
    runs once, at mount) ever empties the subscription cell: once a
    subscription is present it stays present through any sequence of
    steps, a successful revoke included, so the Subscribe button stays
    disabled for the rest of the session. *)
Theorem subscription_never_cleared (steps : list App.action) (w : World) :
  Forall (fun a => a <> App.LoadStored) steps ->
  truthy (subscription (state w)) = true ->
  truthy (subscription (state (App.perform_all ToString steps w))) = true
  /\ createSubscription_disabled (state (App.perform_all ToString steps w))
     = true.
Proof.
  intros Hsteps Hsub.
  assert (Hkeep : truthy (subscription
                            (state (App.perform_all ToString steps w))) = true).
  { revert w Hsub. induction Hsteps as [|a steps Ha _ IH]; intros w Hsub.
    - exact Hsub.
    - rewrite perform_all_cons. apply IH.
      destruct (step_effects a w) as (_ & Hstep & _).
      exact (Hstep Ha Hsub). }
  split; [exact Hkeep|].
  unfold createSubscription_disabled. rewrite Hkeep. apply orb_true_r.
Qed.

(** X10. Whatever steps run, with whatever closures and results, the
    controller only ever adds to its log of requests, one request per step
    at most, and each of them is a POST to one of the three routes, a
    platform subscribe or status call flagged testnet, or a timer of two
    seconds. *)
Theorem controller_sends_only_expected_requests
    (steps : list App.action) (w : World) :
  exists new,
    log (App.perform_all ToString steps w) = log w ++ new
    /\ forallb App.expected_io new = true
    /\ length new <= length steps.
Proof.
  revert w. induction steps as [|a steps IH]; intros w.
  - exists []. rewrite app_nil_r. repeat split. simpl. lia.
  - destruct (step_effects a w) as ((new1 & Hlog1 & Hio1 & Hlen1) & _).
    destruct (IH (fst (App.perform ToString a w))) as (new2 & Hlog2 & Hio2 & Hlen2).
    exists (new1 ++ new2). rewrite perform_all_cons.
    rewrite Hlog2, Hlog1, <- app_assoc. split; [reflexivity|].
    rewrite forallb_app, Hio1, Hio2, length_app. split; [reflexivity|].
    simpl. lia.
Qed.

(** X11. The controller keeps to its two localStorage records: no
    sequence of steps changes any other key, and none removes a stored
    subscription record (a wallet record is removed only by the storage
    effect, when it does not parse). *)
Theorem controller_keeps_to_its_storage_keys
    (steps : list App.action) (w : World) :
  (forall key,
      key <> "bbq-wallet" -> key <> "bbq-subscription" ->
      localStorage (App.perform_all ToString steps w) !! key
      = localStorage w !! key)
  /\ (is_Some (localStorage w !! "bbq-subscription") ->
      is_Some (localStorage (App.perform_all ToString steps w)
                 !! "bbq-subscription")).
Proof.
  revert w. induction steps as [|a steps IH]; intros w.
  - split; [reflexivity|auto].
  - destruct (step_effects a w) as (_ & _ & Hkeys & Hsub).
    destruct (IH (fst (App.perform ToString a w))) as [IHkeys IHsub].
    split.
    + intros key Hw Hs. rewrite perform_all_cons.
      rewrite (IHkeys key Hw Hs). exact (Hkeys key Hw Hs).
    + intros Hsome. rewrite perform_all_cons. apply IHsub, Hsub, Hsome.
Qed.

(** The end of an operation writes at most one of the two banners: the
    other stays as the live state had it. *)
Lemma resume_writes_one_banner (c : State) (w : World) :
  (forall r, let w' := fst (handleCreateWallet_resume ToString c r w) in
             error (state w') = error (state w)
             \/ success (state w') = success (state w))
  /\ (forall r, let w' := fst (handleCreateSubscription_resume c r w) in
                error (state w') = error (state w)
                \/ success (state w') = success (state w))
  /\ (forall r, let w' := fst (handleChargeSubscription_resume ToString c r w) in
                error (state w') = error (state w)
                \/ success (state w') = success (state w))
  /\ (forall r, let w' := fst (handleRevokeSubscription_resume ToString c r w) in
                error (state w') = error (state w)
                \/ success (state w') = success (state w)).
Proof.
  repeat split; intros r w'; subst w';
    match goal with
    | |- context [fst ?t] => remember (fst t) as w' eqn:Hw'
    end;
    revert Hw'; run_action; crunch; intros ->; simpl; auto.
Qed.

(** X12. The end of Create Wallet, Create Subscription, Charge and Revoke
    writes at most one of the two banners, whatever the awaited result and
    whatever the live state: the other banner stays as it was.  So an
    operation that got past its guard and whose end runs on the state its
    start left, nothing else having run in between, ends with at most one
    banner shown (the start cleared both).  With another handler in
    between it can end with both: a status refresh that fails after a
    charge has started sets the error banner, and the charge's ok answer
    then adds the success banner. *)
Theorem one_banner_after_operation (c : State) (w : World) :
  (forall r,
      let w' := fst (handleCreateWallet_resume ToString c r w) in
      error (state w') = error (state w)
      \/ success (state w') = success (state w))
  /\ (forall r,
        let w' := fst (handleCreateSubscription_resume c r w) in
        error (state w') = error (state w)
        \/ success (state w') = success (state w))
  /\ (forall r,
        let w' := fst (handleChargeSubscription_resume ToString c r w) in
        error (state w') = error (state w)
        \/ success (state w') = success (state w))
  /\ (forall r,
        let w' := fst (handleRevokeSubscription_resume ToString c r w) in
        error (state w') = error (state w)
        \/ success (state w') = success (state w))
  /\ (forall r,
        let w' := fst (handleCreateWallet_resume ToString c r
                         (fst (handleCreateWallet_begin c w))) in
        truthy (error (state w')) && truthy (success (state w')) = false)
  /\ (truthy (wallet c) = true ->
      forall r,
        let w' := fst (handleCreateSubscription_resume c r
                         (fst (handleCreateSubscription_begin c w))) in
        truthy (error (state w')) && truthy (success (state w')) = false)
  /\ (truthy (wallet c) = true -> truthy (subscription c) = true ->
      forall r,
        let w' := fst (handleChargeSubscription_resume ToString c r
                         (fst (handleChargeSubscription_begin c w))) in
        truthy (error (state w')) && truthy (success (state w')) = false)
  /\ (truthy (subscription c) = true ->
      forall r,
        let w' := fst (handleRevokeSubscription_resume ToString c r
                         (fst (handleRevokeSubscription_begin c w))) in
        truthy (error (state w')) && truthy (success (state w')) = false)
  /\ (let c0 := state Sample.subscribed in
      let w1 := fst (handleChargeSubscription_begin c0 Sample.subscribed) in
      let w2 :=
        fst (handleGetStatus_resume c0 (Throw (js_Error "Failed to fetch")) w1) in
      let w3 :=
        fst (handleChargeSubscription_resume ToString c0
               (Responded 200
                  (Wellformed (JObj [("success", JBool true);
                                     ("message", JStr "Charged $1.00")])))
               w2) in
      error (state w3) = JStr "Failed to fetch"
      /\ success (state w3) = JStr "Charged $1.00").
Proof.
  assert (Hboth : forall w0 w' : World,
             error (state w0) = JNull -> success (state w0) = JNull ->
             error (state w') = error (state w0)
             \/ success (state w') = success (state w0) ->
             truthy (error (state w')) && truthy (success (state w')) = false).
  { intros w0 w' He Hs [-> | ->]; [rewrite He|rewrite Hs];
      [reflexivity|apply andb_false_r]. }
  destruct (resume_writes_one_banner c w) as (Hw & Hs & Hc & Hr).
  split; [exact Hw|]. split; [exact Hs|]. split; [exact Hc|].
  split; [exact Hr|].
  split; [|split; [|split; [|split]]].
  - intros r w'.
    apply (Hboth (fst (handleCreateWallet_begin c w))); [reflexivity..|].
    apply resume_writes_one_banner.
  - intros Hwallet r w'.
    apply (Hboth (fst (handleCreateSubscription_begin c w)));
      [unfold handleCreateSubscription_begin; rewrite Hwallet; reflexivity..|].
    apply resume_writes_one_banner.
  - intros Hwallet Hsub r w'.
    apply (Hboth (fst (handleChargeSubscription_begin c w)));
      [unfold handleChargeSubscription_begin; rewrite Hwallet, Hsub;
       reflexivity..|].
    apply resume_writes_one_banner.
  - intros Hsub r w'.
    apply (Hboth (fst (handleRevokeSubscription_begin c w)));
      [unfold handleRevokeSubscription_begin; rewrite Hsub; reflexivity..|].
    apply resume_writes_one_banner.
  - vm_compute. split; reflexivity.
Qed.

(** X13. Stored records that do not parse are dropped without a banner,
    each in its own way: a wallet record that is not JSON leaves the
    wallet absent and is removed from localStorage; a subscription record
    that is not JSON leaves the subscription absent, fetches nothing, and
    stays in localStorage. *)
Theorem stored_records_that_do_not_parse
    (storage : gmap string json_text) (raw : string) :
  raw <> "" ->
  (storage !! "bbq-wallet" = Some (Malformed raw) ->
     let cmp := mount storage in
     wallet (state (world cmp)) = JNull
     /\ localStorage (world cmp) !! "bbq-wallet" = None
     /\ error (state (world cmp)) = JNull)
  /\ (storage !! "bbq-subscription" = Some (Malformed raw) ->
      let cmp := mount storage in
      subscription (state (world cmp)) = JNull
      /\ localStorage (world cmp) !! "bbq-subscription" = Some (Malformed raw)
      /\ log (world cmp) = []
      /\ error (state (world cmp)) = JNull).
Proof.
  intros Hraw. apply String.eqb_neq in Hraw.
  split.
  - intros Hw cmp. subst cmp.
    remember (mount storage) as cmp eqn:Hcmp. revert Hcmp.
    unfold mount, rerender, first_commit, loadStored, checkStatus_begin, flag.
    run_ui. rewrite Hw. simpl. rewrite Hraw. simpl.
    destruct (delete "bbq-wallet" storage !! "bbq-subscription")
      as [[v|raw']|] eqn:Hs; crunch; intros ->; simpl;
      repeat split; apply lookup_delete_eq.
  - intros Hs cmp. subst cmp.
    remember (mount storage) as cmp eqn:Hcmp. revert Hcmp.
    unfold mount, rerender, first_commit, loadStored, checkStatus_begin, flag.
    run_ui.
    destruct (storage !! "bbq-wallet") as [[v|raw']|] eqn:Hw; simpl;
      [ | destruct (raw' =? ""); simpl | ];
      rewrite ?lookup_delete_ne by discriminate;
      rewrite Hs; simpl; rewrite Hraw; simpl; intros ->; simpl;
      repeat split;
      rewrite ?lookup_delete_ne by discriminate; exact Hs.
Qed.

Local Transparent JSON_stringify new_Error js_or.

End ControllerMore.

(** * Persistence, and the controller together with the routes *)

(** ** Facts about the JSON round trip *)

Lemma json_wire_defined (v : jsval) : json_wire v <> JUndefined.
Proof.
  destruct v as [ | |b|n|s|xs|ps]; simpl; try discriminate.
  destruct n; discriminate.
Qed.

Lemma json_wire_keeps_falsy (v : jsval) :
  truthy v = false -> truthy (json_wire v) = false.
Proof.
  destruct v as [ | |b|n|s|xs|ps]; simpl; try (intros; reflexivity || assumption).
  destruct n; simpl; intros H; try reflexivity; discriminate H.
Qed.

Lemma json_wire_object (ps : list (string * jsval)) :
  json_wire (JObj ps) = JObj (App.wire_props ps).
Proof. reflexivity. Qed.

Lemma wire_props_cons (k : string) (x : jsval) (ps : list (string * jsval)) :
  App.wire_props ((k, x) :: ps)
  = match x with
    | JUndefined => App.wire_props ps
    | _ => (k, json_wire x) :: App.wire_props ps
    end.
Proof. destruct x; reflexivity. Qed.

Lemma wire_props_cons_plain (k : string) (x : jsval) (ps : list (string * jsval)) :
  json_wire x = x ->
  App.wire_props ((k, x) :: ps) = (k, x) :: App.wire_props ps.
Proof.
  intros Hplain. rewrite wire_props_cons, Hplain.
  destruct x; try reflexivity.
  discriminate Hplain.
Qed.

(** Reading a property of an object after the round trip. *)
Lemma get_prop_wire (ps : list (string * jsval)) (k : string) (v : jsval) :
  alist_get k ps = Some v ->
  v <> JUndefined ->
  get_prop (json_wire (JObj ps)) k = json_wire v.
Proof.
  rewrite json_wire_object. simpl. intros Hget Hdef.
  induction ps as [|[k' x] ps IH]; [discriminate Hget|].
  simpl in Hget. rewrite wire_props_cons.
  destruct (k' =? k) eqn:Hk.
  - injection Hget as ->. destruct v; try contradiction; simpl; rewrite Hk;
      reflexivity.
  - destruct x; simpl; rewrite ?Hk; exact (IH Hget).
Qed.

Lemma get_prop_wire_absent (ps : list (string * jsval)) (k : string) :
  alist_get k ps = None -> get_prop (json_wire (JObj ps)) k = JUndefined.
Proof.
  rewrite json_wire_object. simpl.
  induction ps as [|[k' x] ps IH]; [reflexivity|].
  simpl. rewrite wire_props_cons. destruct (k' =? k) eqn:Hk; [discriminate|].
  intros Hget. destruct x; simpl; rewrite ?Hk; exact (IH Hget).
Qed.

Lemma JSON_stringify_plain (v : jsval) :
  json_wire v = v -> JSON_stringify v = Wellformed v.
Proof.
  intros Hplain. destruct v; simpl in *; try rewrite Hplain; try reflexivity.
  discriminate Hplain.
Qed.

(** ** What is stored comes back on reload *)

Section Persistence.
Import SubscriptionManager.
Variable ToString : jsval -> string.

Lemma mount_restores_wallet (storage : gmap string json_text) (v : jsval) :
  storage !! "bbq-wallet" = Some (Wellformed v) ->
  wallet (state (world (mount storage))) = v.
Proof.
  intros Hw.
  remember (mount storage) as cmp eqn:Hcmp. revert Hcmp.
  unfold mount, rerender, first_commit, loadStored, checkStatus_begin.
  run_ui. rewrite Hw. simpl.
  destruct (storage !! "bbq-subscription") as [[sub|raw]|]; crunch;
    intros ->; reflexivity.
Qed.

Lemma mount_restores_subscription
    (storage : gmap string json_text) (sub : jsval) :
  storage !! "bbq-subscription" = Some (Wellformed sub) ->
  opt_member sub "id" <> JUndefined ->
  subscription (state (world (mount storage))) = sub
  /\ log (world (mount storage))
     = [GetStatus (JObj [("id", get_prop sub "id"); ("testnet", JBool true)])].
Proof.
  intros Hsub Hid.
  destruct (first_commit_restores storage sub Hsub)
    as (Hlog & Hs & Hst & Hload & Hdep).
  cbv zeta in Hlog, Hs, Hst, Hload, Hdep.
  pose proof (opt_member_defined_truthy sub "id" Hid) as Htruthy.
  unfold mount, rerender. cbv zeta.
  generalize dependent (first_commit storage).
  intros fc Hlog Hs Hst Hload Hdep.
  rewrite Hdep, Hs, (Object_is_undefined _ Hid). simpl.
  unfold checkStatus_begin. rewrite Hs, Hst, Hload, Htruthy.
  unfold flag. rewrite lookup_empty. run_ui.
  rewrite Hlog, Hs. split; reflexivity.
Qed.

Local Opaque JSON_stringify.

(** X14. A wallet that Create Wallet has stored comes back on reload: when
    the provisioning request is answered ok with a plain JSON body, that
    body becomes the wallet, the success banner is set, and mounting the
    component again from the localStorage left behind restores the same
    wallet. *)
Theorem created_wallet_survives_reload
    (c : State) (w : World) (status : Z) (body : json_text) (data : jsval) :
  ok status = true ->
  JSON_parse body = Normal data ->
  json_wire data = data ->
  let w' := fst (handleCreateWallet_resume ToString c (Responded status body) w) in
  wallet (state w') = data
  /\ success (state w') = JStr "Wallet created successfully!"
  /\ error (state w') = error (state w)
  /\ wallet (state (world (mount (localStorage w')))) = data.
Proof.
  intros Hok Hparse Hplain w'. subst w'.
  unfold handleCreateWallet_resume. run_ui. rewrite Hok, Hparse. simpl.
  repeat split.
  apply mount_restores_wallet.
  rewrite lookup_insert_eq, (JSON_stringify_plain _ Hplain). reflexivity.
Qed.

(** X15. A subscription that Create Subscription has stored comes back on
    reload, with its status fetched: when the platform's subscribe call
    returns a result whose four recorded fields are plain JSON values,
    the record kept is made of exactly these four fields, a status fetch
    for the new id is scheduled in two seconds, and mounting the component
    again from the localStorage left behind restores the same record and
    issues one status fetch for its id. *)
Theorem created_subscription_survives_reload
    (c : State) (w : World) (result : jsval) :
  nullish result = false ->
  (forall field,
      In field ["id"; "subscriptionPayer"; "recurringCharge"; "periodInDays"] ->
      json_wire (get_prop result field) = get_prop result field) ->
  let subscriptionData :=
    JObj [("id", get_prop result "id");
          ("subscriptionPayer", get_prop result "subscriptionPayer");
          ("recurringCharge", get_prop result "recurringCharge");
          ("periodInDays", get_prop result "periodInDays")] in
  let fetch :=
    GetStatus (JObj [("id", get_prop result "id"); ("testnet", JBool true)]) in
  let w' := fst (handleCreateSubscription_resume c (Normal result) w) in
  subscription (state w') = subscriptionData
  /\ log w' = log w ++ [SetTimeout (CallGetStatus c (get_prop result "id")) 2000]
  /\ subscription (state (world (mount (localStorage w')))) = subscriptionData
  /\ log (world (mount (localStorage w'))) = [fetch].
Proof.
  intros Hnn Hplain subscriptionData fetch w'.
  assert (Hdata : JSON_stringify subscriptionData = Wellformed subscriptionData).
  { apply JSON_stringify_plain. unfold subscriptionData.
    rewrite json_wire_object.
    rewrite !wire_props_cons_plain by (apply Hplain; simpl; auto).
    reflexivity. }
  assert (Hid : opt_member subscriptionData "id" <> JUndefined).
  { change (opt_member subscriptionData "id") with (get_prop result "id").
    rewrite <- (Hplain "id") by (simpl; auto). apply json_wire_defined. }
  assert (Hw' : subscription (state w') = subscriptionData
                /\ log w' = log w ++ [SetTimeout
                                        (CallGetStatus c (get_prop result "id"))
                                        2000]
                /\ localStorage w'
                   = <["bbq-subscription" := JSON_stringify subscriptionData]>
                       (localStorage w)).
  { subst w'. unfold handleCreateSubscription_resume, member. run_ui.
    rewrite Hnn. simpl. repeat split. }
  destruct Hw' as (Hs & Hl & Hstore).
  destruct (mount_restores_subscription (localStorage w') subscriptionData)
    as [Hrestored Hfetch].
  { rewrite Hstore, lookup_insert_eq, Hdata. reflexivity. }
  { exact Hid. }
  repeat split; assumption.
Qed.

Local Transparent JSON_stringify.

End Persistence.

(** ** Handlers, effects and timers together *)

Section Together.
Import SubscriptionManager.
Variable ToString : jsval -> string.

Local Opaque JSON_stringify Object_is.

Lemma opt_member_first (k : string) (v : jsval) (ps : list (string * jsval)) :
  opt_member (JObj ((k, v) :: ps)) k = v.
Proof. unfold opt_member. simpl. rewrite String.eqb_refl. reflexivity. Qed.

(** X16. Creating a subscription fetches its status twice.  On a mounted
    component with a wallet, no subscription and no status, the end of
    Create Subscription sets the timer; the render that follows sees a new
    [subscription?.id], so the status effect fetches at once; and when the
    timer fires, the [handleGetStatus] of the old render, given the new
    id, fetches the same status again. *)
Theorem creating_a_subscription_fetches_status_twice
    (cmp : Component) (result : jsval) :
  let c := state (world cmp) in
  truthy (wallet c) = true ->
  subscription c = JNull ->
  truthy (subscriptionStatus c) = false ->
  flag (loading c) "status" = false ->
  checkStatus_dep cmp = JUndefined ->
  truthy (get_prop result "id") = true ->
  let fetch :=
    GetStatus (JObj [("id", get_prop result "id"); ("testnet", JBool true)]) in
  let timer := CallGetStatus c (get_prop result "id") in
  let cmp1 := App.then_render (handleCreateSubscription_begin c) cmp in
  let cmp2 :=
    App.then_render (handleCreateSubscription_resume c (Normal result)) cmp1 in
  exists options,
    log (world cmp2)
    = log (world cmp) ++ [Subscribe options; SetTimeout timer 2000; fetch]
    /\ log (fst (App.fire timer (world cmp2))) = log (world cmp2) ++ [fetch].
Proof.
  intros c Hwallet Hsub Hstatus Hflag Hdep Hid fetch timer cmp1 cmp2.
  assert (Hnn : nullish result = false).
  { destruct result; try reflexivity; discriminate Hid. }
  assert (Hdef : get_prop result "id" <> JUndefined).
  { intros H. rewrite H in Hid. discriminate Hid. }
  (* the start of the handler: the request goes out, no effect runs *)
  assert (H1 : exists options,
             log (world cmp1) = log (world cmp) ++ [Subscribe options]
             /\ checkStatus_dep cmp1 = JUndefined
             /\ subscriptionStatus (state (world cmp1)) = subscriptionStatus c).
  { subst cmp1. unfold App.then_render, rerender, handleCreateSubscription_begin.
    rewrite Hwallet. run_ui. fold c. rewrite Hsub, Hdep. simpl.
    rewrite Object_is_refl.
    eexists. repeat split. }
  destruct H1 as (options & Hlog1 & Hdep1 & Hstatus1).
  exists options.
  (* its end: record, timer, and the effect on the render that follows *)
  assert (H2 : log (world cmp2)
               = log (world cmp1) ++ [SetTimeout timer 2000; fetch]).
  { subst cmp2. unfold App.then_render, rerender,
      handleCreateSubscription_resume, member.
    run_ui. rewrite Hnn. simpl. rewrite Hdep1, opt_member_first.
    rewrite (Object_is_undefined _ Hdef). simpl.
    unfold checkStatus_begin. simpl. rewrite Hstatus1, Hstatus.
    unfold flag. rewrite lookup_insert_ne by discriminate.
    unfold flag in Hflag. rewrite Hflag. run_ui.
    rewrite <- app_assoc. reflexivity. }
  split.
  - rewrite H2, Hlog1, <- app_assoc. reflexivity.
  - unfold App.fire, timer, handleGetStatus_begin, js_or. rewrite !Hid.
    run_ui. reflexivity.
Qed.

Local Transparent JSON_stringify Object_is.

End Together.

(** ** A click, the route it reaches, and the banner that comes back *)

Section EndToEnd.
Import SubscriptionManager.
Variable ToString : jsval -> string.
Variable env : gmap string string.
Variable charge revoke getOrCreateSubscriptionOwnerWallet
  : jsval -> completion jsval.

(** X17. From the Charge button to the platform: with a wallet and a
    subscription whose id is a non-empty string, the body that Charge
    Subscription posts, given to the charge handler, makes one platform
    charge call for that id; its amount is the Charge Amount input, or
    "1.00" when the input is empty, and it names a recipient exactly when
    the Recipient Address input is not empty. *)
Theorem charge_click_reaches_platform
    (c : State) (w : World) (server_log : list Server.call) (id : string) :
  truthy (wallet c) = true ->
  get_prop (subscription c) "id" = JStr id ->
  id <> "" ->
  exists body,
    log (fst (handleChargeSubscription_begin c w))
    = log w ++ [Fetch "/API/charge-subscription" "POST" json_headers (Some body)]
    /\ fst (ChargeRoute.POST ToString env charge body server_log)
       = server_log
         ++ [Server.Charge
               (JObj ([("id", JStr id);
                       ("amount",
                         JStr (if chargeAmount c =? "" then "1.00"
                               else chargeAmount c));
                       ("testnet", JBool true);
                       ("walletName", JStr "bbq-sub-v1");
                       ("cdpApiKeyId", Server.process_env env "CDP_API_KEY_ID");
                       ("cdpApiKeySecret",
                         Server.process_env env "CDP_API_KEY_SECRET");
                       ("cdpWalletSecret",
                         Server.process_env env "CDP_WALLET_SECRET")]
                      ++ (if recipientAddress c =? "" then []
                          else [("recipient", JStr (recipientAddress c))])))].
Proof.
  intros Hwallet Hid Hne. apply String.eqb_neq in Hne.
  assert (Hsub : truthy (subscription c) = true).
  { destruct (subscription c); try discriminate Hid; reflexivity. }
  eexists. split.
  - unfold handleChargeSubscription_begin. rewrite Hwallet, Hsub. reflexivity.
  - rewrite charge_POST_log, Hid. unfold js_or, spread_if. simpl.
    rewrite Hne. simpl.
    destruct (chargeAmount c =? "") eqn:Hamount;
      destruct (recipientAddress c =? "") eqn:Hrecipient; simpl;
      rewrite ?Hne, ?Hamount, ?Hrecipient; simpl;
      rewrite ?Hne, ?Hamount, ?Hrecipient; reflexivity.
Qed.

(** X18. A subscription record without a usable id (restored from a
    stored record that lacks one, say) still passes the guard of Charge
    Subscription: the request goes out, the charge handler stops it with
    status 400 before the platform, and the banner that comes back is the
    red ErrorInfo titled "Missing subscriptionId". *)
Theorem charge_without_id_shows_missing_id
    (c : State) (w : World) (server_log : list Server.call) :
  truthy (wallet c) = true ->
  truthy (subscription c) = true ->
  truthy (get_prop (subscription c) "id") = false ->
  let w1 := fst (handleChargeSubscription_begin c w) in
  exists body resp,
    log w1
    = log w ++ [Fetch "/API/charge-subscription" "POST" json_headers (Some body)]
    /\ ChargeRoute.POST ToString env charge body server_log
       = (server_log, Normal resp)
    /\ Server.status resp = 400%Z
    /\ error (state (fst (handleChargeSubscription_resume ToString c
                            (App.delivered resp) w1)))
       = JObj [("title", JStr "Missing subscriptionId");
               ("message", JStr "Missing subscriptionId");
               ("details", JUndefined);
               ("type", JStr "error")].
Proof.
  intros Hwallet Hsub Hid w1.
  assert (Hbody : exists ps,
             log w1 = log w ++ [Fetch "/API/charge-subscription" "POST"
                                  json_headers (Some (Wellformed (JObj ps)))]
             /\ truthy (get_prop (JObj ps) "subscriptionId") = false).
  { subst w1. unfold handleChargeSubscription_begin. rewrite Hwallet, Hsub.
    pose proof (json_wire_keeps_falsy _ Hid) as Hwire.
    destruct (get_prop (subscription c) "id") eqn:Hv;
      unfold js_or; destruct (truthy (JStr (recipientAddress c)));
      (eexists; split; [reflexivity|]); simpl in *;
      first [reflexivity | exact Hwire]. }
  destruct Hbody as (ps & Hlog & Hfalsy).
  exists (Wellformed (JObj ps)).
  exists {| Server.status := 400;
            Server.body := JObj [("error", JStr "Missing subscriptionId")] |}.
  split; [exact Hlog|]. split.
  - unfold ChargeRoute.POST. run. unfold destructure. simpl.
    simpl in Hfalsy. rewrite Hfalsy. reflexivity.
  - split; [reflexivity|].
    change (App.delivered _)
      with (Responded 400
              (Wellformed (JObj [("error", JStr "Missing subscriptionId")]))).
    rewrite charge_failure_banner_of by reflexivity. reflexivity.
Qed.

(** The body of an answer of the charge handler with status 200. *)
Lemma charge_POST_ok_body
    (request : json_text) (server_log : list Server.call) (resp : Server.Response) :
  snd (ChargeRoute.POST ToString env charge request server_log) = Normal resp ->
  Server.status resp = 200%Z ->
  exists transactionHash amount subscriptionOwner text rest,
    Server.body resp
    = JObj (("success", JBool true)
            :: ("transactionHash", transactionHash)
            :: ("amount", amount)
            :: ("subscriptionOwner", subscriptionOwner)
            :: ("message", JStr ("Successfully charged $" ++ text)%string)
            :: rest).
Proof.
  unfold ChargeRoute.POST. run.
  unfold ChargeRoute.base_subscription_charge, destructure, member.
  destruct request as [json|raw]; simpl;
    [|intros [= <-]; discriminate].
  destruct (nullish json); simpl; [intros [= <-]; discriminate|].
  destruct (truthy (get_prop json "subscriptionId")); simpl;
    [|intros [= <-]; discriminate].
  destruct (charge _) as [res|e]; simpl.
  - destruct (nullish res); simpl; intros [= <-]; [discriminate|].
    intros _. eexists _, _, _, _, _. reflexivity.
  - destruct (nullish e); simpl; [discriminate|]. intros [= <-]. discriminate.
Qed.

(** What Charge Subscription does with an ok response whose JSON body
    [data] has a truthy [success]. *)
Lemma charge_success_banner_of
    (c : State) (w : World) (status : Z) (data : jsval) :
  ok status = true ->
  nullish data = false ->
  truthy (get_prop data "success") = true ->
  let w' := fst (handleChargeSubscription_resume ToString c
                   (Responded status (Wellformed data)) w) in
  success (state w')
  = js_or (get_prop data "message")
      (JStr ("Successfully charged $" ++ ToString (get_prop data "amount"))%string)
  /\ error (state w') = error (state w)
  /\ log w' = log w ++ [SetTimeout (CallGetStatus c JUndefined) 2000].
Proof.
  intros Hok Hnn Hsuccess w'. subst w'.
  unfold handleChargeSubscription_resume, member. run_ui.
  rewrite Hok, Hnn. simpl. rewrite Hsuccess. simpl.
  repeat split.
Qed.

(** X19. From the platform back to the success banner: whenever the
    charge handler answers with status 200, Charge Subscription, given
    that answer, shows the handler's message ("Successfully charged $... 
    USDC") as the success banner, leaves the error banner as it is, and
    sets the two-second timer for a status refresh. *)
Theorem charge_answer_reaches_success_banner
    (request : json_text) (server_log : list Server.call) (resp : Server.Response)
    (c : State) (w : World) :
  snd (ChargeRoute.POST ToString env charge request server_log) = Normal resp ->
  Server.status resp = 200%Z ->
  let w' := fst (handleChargeSubscription_resume ToString c
                   (App.delivered resp) w) in
  success (state w') = get_prop (Server.body resp) "message"
  /\ (exists text,
        success (state w') = JStr ("Successfully charged $" ++ text)%string)
  /\ error (state w') = error (state w)
  /\ log w' = log w ++ [SetTimeout (CallGetStatus c JUndefined) 2000].
Proof.
  intros Hresp Hstatus w'.
  destruct (charge_POST_ok_body request server_log resp Hresp Hstatus)
    as (tx & amount & owner & text & rest & Hbody).
  destruct resp as [status body]. simpl in Hstatus, Hbody. subst status body.
  set (ps := ("success", JBool true) :: ("transactionHash", tx)
             :: ("amount", amount) :: ("subscriptionOwner", owner)
             :: ("message", JStr ("Successfully charged $" ++ text)%string)
             :: rest) in *.
  assert (Hs : get_prop (json_wire (JObj ps)) "success" = JBool true).
  { apply (get_prop_wire ps "success" (JBool true)); [reflexivity|discriminate]. }
  assert (Hm : get_prop (json_wire (JObj ps)) "message"
               = JStr ("Successfully charged $" ++ text)%string).
  { apply (get_prop_wire ps "message"
             (JStr ("Successfully charged $" ++ text)%string));
      [reflexivity|discriminate]. }
  assert (Hd : App.delivered {| Server.status := 200; Server.body := JObj ps |}
               = Responded 200 (Wellformed (json_wire (JObj ps))))
    by reflexivity.
  subst w'. rewrite Hd.
  destruct (charge_success_banner_of c w 200 (json_wire (JObj ps)))
    as (Hsuccess & Herror & Hlog);
    [reflexivity|reflexivity|rewrite Hs; reflexivity|].
  cbv zeta in Hsuccess. rewrite Hm in Hsuccess.
  split; [rewrite Hsuccess; reflexivity|].
  split; [exists text; exact Hsuccess|].
  split; assumption.
Qed.

(** X20. A failed provisioning is reported without its cause: when the
    create-wallet handler answers with anything but status 200, its body
    is [{ error }] alone, holding the platform's message or the handler's
    fallback text, and Create Wallet, given that answer, shows the fixed
    banner "Failed to create wallet"; the wallet and localStorage stay as
    they were. *)
Theorem failed_provisioning_shows_fixed_banner
    (server_log : list jsval) (resp : Server.Response) (c : State) (w : World) :
  snd (CreateWalletRoute.POST env getOrCreateSubscriptionOwnerWallet server_log)
  = Normal resp ->
  Server.status resp <> 200%Z ->
  let w' := fst (handleCreateWallet_resume ToString c (App.delivered resp) w) in
  (exists reason,
      resp = {| Server.status := 500;
                Server.body := JObj [("error", reason)] |}
      /\ truthy reason = true)
  /\ error (state w') = JStr "Failed to create wallet"
  /\ success (state w') = success (state w)
  /\ wallet (state w') = wallet (state w)
  /\ localStorage w' = localStorage w.
Proof.
  rewrite createWallet_POST_answer. intros Hresp Hstatus w'.
  assert (Hshape : exists reason,
             resp = {| Server.status := 500;
                       Server.body := JObj [("error", reason)] |}
             /\ truthy reason = true).
  { destruct (getOrCreateSubscriptionOwnerWallet _) as [owner|e].
    - destruct (nullish owner) eqn:Hn; injection Hresp as <-.
      + eexists. split; [reflexivity|].
        destruct owner; try discriminate Hn; reflexivity.
      + simpl in Hstatus. contradiction.
    - destruct (member e "message") as [message|e']; [|discriminate].
      injection Hresp as <-. eexists. split; [reflexivity|].
      apply js_or_truthy. reflexivity. }
  split; [exact Hshape|].
  destruct Hshape as (reason & -> & _). subst w'.
  unfold handleCreateWallet_resume, App.delivered. run_ui.
  repeat split.
Qed.

(** X21. From provisioning to subscribing: when the platform returns an
    owner whose address is a string, the create-wallet handler answers
    200, Create Wallet makes that answer the wallet and stores it, and a
    Create Subscription started from the render that follows asks the
    platform to subscribe with that address as subscriptionOwner, the
    amount of the Subscription Amount input, a period of 30 days and the
    testnet flag. *)
Theorem provisioned_address_becomes_subscription_owner
    (server_log : list jsval) (options owner : jsval) (address : string)
    (c : State) (w : World) :
  fst (CreateWalletRoute.POST env getOrCreateSubscriptionOwnerWallet server_log)
  = server_log ++ [options] ->
  getOrCreateSubscriptionOwnerWallet options = Normal owner ->
  get_prop owner "address" = JStr address ->
  exists resp,
    snd (CreateWalletRoute.POST env getOrCreateSubscriptionOwnerWallet server_log)
    = Normal resp
    /\ Server.status resp = 200%Z
    /\ let w1 := fst (handleCreateWallet_resume ToString c
                        (App.delivered resp) w) in
       get_prop (wallet (state w1)) "address" = JStr address
       /\ is_Some (localStorage w1 !! "bbq-wallet")
       /\ log (fst (handleCreateSubscription_begin (state w1) w1))
          = log w1
            ++ [Subscribe
                  (JObj [("recurringCharge", JStr (subscriptionAmount (state w)));
                         ("subscriptionOwner", JStr address);
                         ("periodInDays", number 30);
                         ("testnet", JBool true)])].
Proof.
  rewrite createWallet_POST_log, createWallet_POST_answer.
  intros Hlog Hcall Haddress. apply log_last_inj in Hlog. subst options.
  rewrite Hcall.
  assert (Hnn : nullish owner = false).
  { destruct owner; try discriminate Haddress; reflexivity. }
  rewrite Hnn, Haddress. eexists. split; [reflexivity|]. split; [reflexivity|].
  unfold App.delivered. cbn [Server.status Server.body].
  set (ps := [("address", JStr address);
              ("walletName", get_prop owner "walletName");
              ("message",
                JStr "CDP smart wallet ready for subscription management")]).
  assert (Hd : JSON_stringify (JObj ps) = Wellformed (json_wire (JObj ps)))
    by reflexivity.
  assert (Ha : get_prop (json_wire (JObj ps)) "address" = JStr address).
  { apply (get_prop_wire ps "address" (JStr address));
      [reflexivity|discriminate]. }
  rewrite Hd. generalize dependent (json_wire (JObj ps)). intros data _ Ha.
  assert (Htruthy : truthy data = true).
  { destruct data; try discriminate Ha; reflexivity. }
  unfold handleCreateWallet_resume. run_ui.
  split; [exact Ha|]. split.
  - rewrite lookup_insert_eq. eauto.
  - unfold handleCreateSubscription_begin. simpl. rewrite Htruthy, Ha.
    reflexivity.
Qed.

(** X22. From a failed revoke to its banner: with a subscription whose id
    is a non-empty string, the body that Revoke Subscription posts makes
    the revoke handler call the platform for that id; when the platform
    throws an Error, the handler answers 500 and the banner that comes
    back is the platform's message as plain text, or "Failed to revoke
    subscription" when the message is empty; the subscription record is
    kept. *)
Theorem failed_revoke_shows_platform_message
    (c : State) (w : World) (server_log : list Server.call)
    (id message : string) :
  get_prop (subscription c) "id" = JStr id ->
  id <> "" ->
  (forall options,
      get_prop options "id" = JStr id -> revoke options = Throw (js_Error message)) ->
  let w1 := fst (handleRevokeSubscription_begin c w) in
  exists body options resp,
    log w1
    = log w ++ [Fetch "/API/revoke-subscription" "POST" json_headers (Some body)]
    /\ RevokeRoute.POST env revoke body server_log
       = (server_log ++ [Server.Revoke options], Normal resp)
    /\ get_prop options "id" = JStr id
    /\ Server.status resp = 500%Z
    /\ let w2 := fst (handleRevokeSubscription_resume ToString c
                        (App.delivered resp) w1) in
       error (state w2)
       = JStr (if message =? "" then "Failed to revoke subscription"
               else message)
       /\ success (state w2) = JNull
       /\ subscription (state w2) = subscription (state w).
Proof.
  intros Hid Hne Hthrows w1. apply String.eqb_neq in Hne.
  assert (Hsub : truthy (subscription c) = true).
  { destruct (subscription c); try discriminate Hid; reflexivity. }
  subst w1. unfold handleRevokeSubscription_begin. rewrite Hsub, Hid.
  eexists _, _, _. split; [reflexivity|].
  unfold RevokeRoute.POST. run.
  unfold RevokeRoute.base_subscription_revoke, destructure. simpl.
  rewrite Hne. simpl. rewrite Hthrows by reflexivity. simpl.
  split; [reflexivity|]. split; [reflexivity|]. split; [reflexivity|].
  unfold App.delivered, handleRevokeSubscription_resume, member, js_or.
  run_ui.
  destruct (message =? "") eqn:Hmessage; simpl; rewrite ?Hmessage; simpl;
    repeat split; rewrite ?Hmessage; reflexivity.
Qed.

End EndToEnd.

(** ** The further properties at sample inputs *)

(** X2 on a request with an empty amount and a recipient. *)
Lemma charge_POST_options_witness :
  exists options,
    fst (ChargeRoute.POST Sample.to_string Sample.env Sample.charge_ok
           MoreSamples.charge_request [])
    = [Server.Charge options]
    /\ get_prop options "id" = JStr "0xsub"
    /\ get_prop options "amount" = JStr "1.00"
    /\ get_prop options "recipient" = JStr "0xshop"
    /\ get_prop options "cdpApiKeyId" = JStr "key-id".
Proof.
  eexists. split; [reflexivity|].
  destruct (charge_POST_options Sample.to_string Sample.env Sample.charge_ok
              MoreSamples.charge_request _ [] _ eq_refl eq_refl)
    as (Hid & Hamount & Hrecipient & _ & Hkey & _).
  exact (conj Hid (conj Hamount (conj Hrecipient Hkey))).
Defined.


(** X5 on the sample requests, for the wallet name. *)
Lemma handlers_use_one_wallet_witness :
  exists charge_options revoke_options wallet_options,
    fst (ChargeRoute.POST Sample.to_string Sample.env Sample.charge_ok
           MoreSamples.charge_request [])
    = [Server.Charge charge_options]
    /\ fst (RevokeRoute.POST Sample.env Sample.revoke_ok
              MoreSamples.revoke_request [])
       = [Server.Revoke revoke_options]
    /\ fst (CreateWalletRoute.POST Sample.env MoreSamples.provision_ok [])
       = [wallet_options]
    /\ get_prop charge_options "walletName" = get_prop wallet_options "walletName"
    /\ get_prop revoke_options "walletName" = get_prop wallet_options "walletName".
Proof.
  eexists _, _, _.
  split; [reflexivity|]. split; [reflexivity|]. split; [reflexivity|].
  exact (handlers_use_one_wallet
           Sample.to_string Sample.env Sample.charge_ok Sample.revoke_ok
           MoreSamples.provision_ok
           MoreSamples.charge_request MoreSamples.revoke_request [] [] []
           _ _ _ "walletName" (or_introl eq_refl) eq_refl eq_refl eq_refl).
Defined.

(** X7 in the sample browser, the revoke being answered ok. *)
Lemma settling_revoke_drops_charge_flag_witness :
  let c := SubscriptionManager.state Sample.subscribed in
  let w1 := fst (SubscriptionManager.handleRevokeSubscription_begin c
                   Sample.subscribed) in
  let w2 := fst (SubscriptionManager.handleChargeSubscription_begin
                   (SubscriptionManager.state w1) w1) in
  let w3 := fst (SubscriptionManager.handleRevokeSubscription_resume
                   Sample.to_string c
                   (SubscriptionManager.Responded 200
                      (Wellformed (JObj [("success", JBool true)])))
                   w2) in
  SubscriptionManager.chargeSubscription_disabled (SubscriptionManager.state w2)
  = true
  /\ SubscriptionManager.chargeSubscription_disabled (SubscriptionManager.state w3)
     = false.
Proof.
  destruct (settling_revoke_drops_charge_flag Sample.to_string Sample.subscribed
              (SubscriptionManager.Responded 200
                 (Wellformed (JObj [("success", JBool true)])))
              eq_refl eq_refl eq_refl)
    as (_ & Hbusy & Hfree & _).
  exact (conj Hbusy Hfree).
Defined.

(** X9 in the sample browser, through a revoke that succeeds. *)
Lemma subscription_never_cleared_witness :
  let c := SubscriptionManager.state Sample.subscribed in
  SubscriptionManager.createSubscription_disabled
    (SubscriptionManager.state
       (App.perform_all Sample.to_string
          [App.RevokeBegin c;
           App.RevokeResume c
             (SubscriptionManager.Responded 200
                (Wellformed (JObj [("success", JBool true)])))]
          Sample.subscribed))
  = true.
Proof.
  refine (proj2 (subscription_never_cleared Sample.to_string _
                   Sample.subscribed _ eq_refl)).
  repeat constructor; discriminate.
Defined.

(** X12 in the sample browser, on a charge that is answered "Insufficient
    Gas" with nothing else in between: the error banner alone is shown. *)
Lemma one_banner_after_operation_witness :
  let c := SubscriptionManager.state Sample.subscribed in
  let w' :=
    fst (SubscriptionManager.handleChargeSubscription_resume Sample.to_string c
           (SubscriptionManager.Responded 500
              (Wellformed (JObj [("success", JBool false);
                                 ("error", JStr "Insufficient Gas")])))
           (fst (SubscriptionManager.handleChargeSubscription_begin c
                   Sample.subscribed))) in
  truthy (SubscriptionManager.error (SubscriptionManager.state w'))
  && truthy (SubscriptionManager.success (SubscriptionManager.state w'))
  = false.
Proof.
  destruct (one_banner_after_operation Sample.to_string
              (SubscriptionManager.state Sample.subscribed) Sample.subscribed)
    as (_ & _ & _ & _ & _ & _ & Hcharge & _).
  exact (Hcharge eq_refl eq_refl _).
Defined.

(** X13 on a localStorage holding two records that are not JSON. *)
Lemma stored_records_that_do_not_parse_witness :
  let cmp := SubscriptionManager.mount MoreSamples.broken_storage in
  SubscriptionManager.wallet
    (SubscriptionManager.state (SubscriptionManager.world cmp)) = JNull
  /\ SubscriptionManager.localStorage (SubscriptionManager.world cmp)
     !! "bbq-wallet" = None
  /\ SubscriptionManager.localStorage (SubscriptionManager.world cmp)
     !! "bbq-subscription" = Some (Malformed "{id:")
  /\ SubscriptionManager.log (SubscriptionManager.world cmp) = [].
Proof.
  destruct (proj1 (stored_records_that_do_not_parse
                     MoreSamples.broken_storage "{address:"
                     ltac:(discriminate))
              ltac:(vm_compute; reflexivity))
    as (Hwallet & Hgone & _).
  destruct (proj2 (stored_records_that_do_not_parse
                     MoreSamples.broken_storage "{id:"
                     ltac:(discriminate))
              ltac:(vm_compute; reflexivity))
    as (_ & Hkept & Hlog & _).
  exact (conj Hwallet (conj Hgone (conj Hkept Hlog))).
Defined.

(** X14 on a first visit, the provisioning answered with the sample
    wallet. *)
Lemma created_wallet_survives_reload_witness :
  let w' :=
    fst (SubscriptionManager.handleCreateWallet_resume Sample.to_string
           SubscriptionManager.initial_state
           (SubscriptionManager.Responded 200 (Wellformed Sample.wallet_info))
           Sample.fresh) in
  SubscriptionManager.wallet (SubscriptionManager.state w') = Sample.wallet_info
  /\ SubscriptionManager.wallet
       (SubscriptionManager.state
          (SubscriptionManager.world
             (SubscriptionManager.mount (SubscriptionManager.localStorage w'))))
     = Sample.wallet_info.
Proof.
  destruct (created_wallet_survives_reload Sample.to_string
              SubscriptionManager.initial_state Sample.fresh 200
              (Wellformed Sample.wallet_info) Sample.wallet_info
              eq_refl eq_refl eq_refl)
    as (Hlive & _ & _ & Hreload).
  exact (conj Hlive Hreload).
Defined.

(** X15 in a browser with a wallet, the platform returning the sample
    subscription. *)
Lemma created_subscription_survives_reload_witness :
  let w' :=
    fst (SubscriptionManager.handleCreateSubscription_resume
           (SubscriptionManager.state MoreSamples.with_wallet)
           (Normal Sample.subscription_info) MoreSamples.with_wallet) in
  SubscriptionManager.subscription (SubscriptionManager.state w')
  = Sample.subscription_info
  /\ SubscriptionManager.log
       (SubscriptionManager.world
          (SubscriptionManager.mount (SubscriptionManager.localStorage w')))
     = [SubscriptionManager.GetStatus
          (JObj [("id", JStr "0xsub"); ("testnet", JBool true)])].
Proof.
  assert (Hplain : forall field,
             In field ["id"; "subscriptionPayer"; "recurringCharge";
                       "periodInDays"] ->
             json_wire (get_prop Sample.subscription_info field)
             = get_prop Sample.subscription_info field).
  { intros field [<-|[<-|[<-|[<-|[]]]]]; reflexivity. }
  destruct (created_subscription_survives_reload
              (SubscriptionManager.state MoreSamples.with_wallet)
              MoreSamples.with_wallet Sample.subscription_info eq_refl Hplain)
    as (Hlive & _ & _ & Hfetch).
  exact (conj Hlive Hfetch).
Defined.

(** X16 on the mounted sample component. *)
Lemma creating_a_subscription_fetches_status_twice_witness :
  let c := SubscriptionManager.state MoreSamples.with_wallet in
  let fetch :=
    SubscriptionManager.GetStatus
      (JObj [("id", JStr "0xsub"); ("testnet", JBool true)]) in
  let timer := SubscriptionManager.CallGetStatus c (JStr "0xsub") in
  let cmp2 :=
    App.then_render
      (SubscriptionManager.handleCreateSubscription_resume c
         (Normal Sample.subscription_info))
      (App.then_render (SubscriptionManager.handleCreateSubscription_begin c)
         MoreSamples.mounted_with_wallet) in
  exists options,
    SubscriptionManager.log (SubscriptionManager.world cmp2)
    = [] ++ [SubscriptionManager.Subscribe options;
             SubscriptionManager.SetTimeout timer 2000; fetch]
    /\ SubscriptionManager.log
         (fst (App.fire timer (SubscriptionManager.world cmp2)))
       = SubscriptionManager.log (SubscriptionManager.world cmp2) ++ [fetch].
Proof.
  exact (creating_a_subscription_fetches_status_twice
           MoreSamples.mounted_with_wallet Sample.subscription_info
           eq_refl eq_refl eq_refl eq_refl eq_refl eq_refl).
Defined.

(** X17 in the sample browser. *)
Lemma charge_click_reaches_platform_witness :
  exists body options,
    SubscriptionManager.log
      (fst (SubscriptionManager.handleChargeSubscription_begin
              (SubscriptionManager.state Sample.subscribed) Sample.subscribed))
    = [] ++ [SubscriptionManager.Fetch "/API/charge-subscription" "POST"
               SubscriptionManager.json_headers (Some body)]
    /\ fst (ChargeRoute.POST Sample.to_string Sample.env Sample.charge_ok body [])
       = [] ++ [Server.Charge options]
    /\ get_prop options "id" = JStr "0xsub"
    /\ get_prop options "amount" = JStr "1.00"
    /\ get_prop options "recipient" = JUndefined.
Proof.
  destruct (charge_click_reaches_platform Sample.to_string Sample.env
              Sample.charge_ok
              (SubscriptionManager.state Sample.subscribed) Sample.subscribed
              [] "0xsub" eq_refl eq_refl ltac:(discriminate))
    as (body & Hsent & Hcall).
  exists body. eexists. split; [exact Hsent|]. split; [exact Hcall|].
  repeat split.
Defined.

(** X18 in the browser whose subscription record has no id. *)
Lemma charge_without_id_shows_missing_id_witness :
  let c := SubscriptionManager.state MoreSamples.subscribed_without_id in
  let w1 := fst (SubscriptionManager.handleChargeSubscription_begin c
                   MoreSamples.subscribed_without_id) in
  exists resp,
    Server.status resp = 400%Z
    /\ get_prop
         (SubscriptionManager.error
            (SubscriptionManager.state
               (fst (SubscriptionManager.handleChargeSubscription_resume
                       Sample.to_string c (App.delivered resp) w1))))
         "title"
       = JStr "Missing subscriptionId".
Proof.
  destruct (charge_without_id_shows_missing_id Sample.to_string Sample.env
              Sample.charge_ok
              (SubscriptionManager.state MoreSamples.subscribed_without_id)
              MoreSamples.subscribed_without_id [] eq_refl eq_refl eq_refl)
    as (body & resp & _ & _ & Hstatus & Hbanner).
  exists resp. split; [exact Hstatus|].
  cbv zeta. rewrite Hbanner. reflexivity.
Defined.

(** X19 on the sample platform's answer. *)
Lemma charge_answer_reaches_success_banner_witness :
  exists resp,
    snd (ChargeRoute.POST Sample.to_string Sample.env Sample.charge_ok
           MoreSamples.charge_request [])
    = Normal resp
    /\ SubscriptionManager.success
         (SubscriptionManager.state
            (fst (SubscriptionManager.handleChargeSubscription_resume
                    Sample.to_string
                    (SubscriptionManager.state Sample.subscribed)
                    (App.delivered resp) Sample.subscribed)))
       = JStr "Successfully charged $1.00 USDC".
Proof.
  eexists. split; [reflexivity|].
  exact (proj1 (charge_answer_reaches_success_banner
                  Sample.to_string Sample.env Sample.charge_ok
                  MoreSamples.charge_request [] _
                  (SubscriptionManager.state Sample.subscribed)
                  Sample.subscribed eq_refl eq_refl)).
Defined.

(** X20 on a platform that refuses to provision. *)
Lemma failed_provisioning_shows_fixed_banner_witness :
  exists resp,
    snd (CreateWalletRoute.POST Sample.env (Sample.throws "quota exceeded") [])
    = Normal resp
    /\ get_prop (Server.body resp) "error" = JStr "quota exceeded"
    /\ SubscriptionManager.error
         (SubscriptionManager.state
            (fst (SubscriptionManager.handleCreateWallet_resume
                    Sample.to_string SubscriptionManager.initial_state
                    (App.delivered resp) Sample.fresh)))
       = JStr "Failed to create wallet".
Proof.
  eexists. split; [reflexivity|]. split; [reflexivity|].
  refine (proj1 (proj2 (failed_provisioning_shows_fixed_banner
                          Sample.to_string Sample.env
                          (Sample.throws "quota exceeded") [] _
                          SubscriptionManager.initial_state Sample.fresh
                          eq_refl _))).
  discriminate.
Defined.

(** X21 on the sample platform, on a first visit. *)
Lemma provisioned_address_becomes_subscription_owner_witness :
  exists resp options,
    snd (CreateWalletRoute.POST Sample.env MoreSamples.provision_ok [])
    = Normal resp
    /\ let w1 :=
         fst (SubscriptionManager.handleCreateWallet_resume Sample.to_string
                SubscriptionManager.initial_state (App.delivered resp)
                Sample.fresh) in
       SubscriptionManager.log
         (fst (SubscriptionManager.handleCreateSubscription_begin
                 (SubscriptionManager.state w1) w1))
       = SubscriptionManager.log w1 ++ [SubscriptionManager.Subscribe options]
       /\ get_prop options "subscriptionOwner" = JStr "0xowner".
Proof.
  destruct (provisioned_address_becomes_subscription_owner
              Sample.to_string Sample.env MoreSamples.provision_ok
              [] _ _ "0xowner" SubscriptionManager.initial_state Sample.fresh
              eq_refl eq_refl eq_refl)
    as (resp & Hresp & _ & _ & _ & Hsubscribe).
  exists resp. eexists. split; [exact Hresp|].
  split; [exact Hsubscribe|reflexivity].
Defined.

(** X22 in the sample browser, on a platform that refuses the revoke. *)
Lemma failed_revoke_shows_platform_message_witness :
  let c := SubscriptionManager.state Sample.subscribed in
  let w1 := fst (SubscriptionManager.handleRevokeSubscription_begin c
                   Sample.subscribed) in
  exists resp,
    Server.status resp = 500%Z
    /\ SubscriptionManager.error
         (SubscriptionManager.state
            (fst (SubscriptionManager.handleRevokeSubscription_resume
                    Sample.to_string c (App.delivered resp) w1)))
       = JStr "not the owner".
Proof.
  destruct (failed_revoke_shows_platform_message Sample.to_string Sample.env
              (Sample.throws "not the owner")
              (SubscriptionManager.state Sample.subscribed) Sample.subscribed
              [] "0xsub" "not the owner" eq_refl ltac:(discriminate)
              (fun _ _ => eq_refl))
    as (body & options & resp & _ & _ & _ & Hstatus & Hbanner & _).
  exists resp. split; [exact Hstatus|exact Hbanner].
Defined.
